(** * Patient-registration resource functions

    A shallow embedding of
    [packages/esm-patient-registration-app/src/patient-registration/patient-registration.resource.tsx]:
    the data-URI conversion used by the photo upload, the request-building
    functions, the photo hook and the person/patient search fallback.

    JavaScript strings are [string]s (one [ascii] per code unit), JavaScript
    data values are [JsValue]s, thrown values are [Exn]s, and a function that
    talks to the backend is a computation in [Eff], which threads the list of
    requests issued so far and reads the transport's answers. *)

From Stdlib Require Import ZArith Ascii String Lia.
From stdpp Require Import base option list strings pretty.

Local Open Scope Z_scope.
#[local] Set Warnings "-register-all".

(** ** JavaScript data values *)

(** Plain data as it travels in request and response bodies.  Only own
    properties are modelled; members inherited from prototypes (methods) are
    not part of a value. *)
Inductive JsValue : Type :=
| JUndefined
| JNull
| JBool (b : bool)
| JNum (n : Z)
| JStr (s : string)
| JArr (items : list JsValue)
| JObj (props : list (string * JsValue)).

(** What a [throw] can carry. *)
Inductive Exn : Type :=
| DOMException (name : string)
| TypeError
| Thrown (v : JsValue).

(** The outcome of evaluating a piece of code: a value, a thrown exception,
    or [Unmodelled] where evaluation leaves the fragment of the language
    embedded here (a string-to-number coercion). *)
Inductive Completion (A : Type) : Type :=
| Normal (a : A)
| Abrupt (e : Exn)
| Unmodelled.
Arguments Normal {A} a.
Arguments Abrupt {A} e.
Arguments Unmodelled {A}.

#[global] Instance completion_ret : MRet Completion := fun A a => Normal a.
#[global] Instance completion_bind : MBind Completion := fun A B f c =>
  match c with
  | Normal a => f a
  | Abrupt e => Abrupt e
  | Unmodelled => Unmodelled
  end.

Definition nullish (v : JsValue) : bool :=
  match v with
  | JUndefined | JNull => true
  | _ => false
  end.

(** [ToBoolean]. *)
Definition truthy (v : JsValue) : bool :=
  match v with
  | JUndefined | JNull => false
  | JBool b => b
  | JNum n => negb (n =? 0)
  | JStr s => negb (String.eqb s "")
  | JArr _ | JObj _ => true
  end.

Fixpoint assoc (k : string) (props : list (string * JsValue)) : JsValue :=
  match props with
  | [] => JUndefined
  | (k', v) :: rest => if String.eqb k k' then v else assoc k rest
  end.

Definition own_keys (v : JsValue) : list string :=
  match v with
  | JObj props => props.*1
  | _ => []
  end.

(** [v.name] on a value that is neither [undefined] nor [null]; [name] is an
    identifier, so it is never an array index. *)
Definition member (v : JsValue) (name : string) : JsValue :=
  match v with
  | JObj props => assoc name props
  | JArr items =>
      if String.eqb name "length" then JNum (Z.of_nat (length items)) else JUndefined
  | JStr s =>
      if String.eqb name "length" then JNum (Z.of_nat (String.length s)) else JUndefined
  | _ => JUndefined
  end.

(** [v[i]] for a numeric index, on a value that is neither [undefined] nor
    [null]. *)
Definition element (v : JsValue) (i : nat) : JsValue :=
  match v with
  | JArr items => default JUndefined (items !! i)
  | JStr s =>
      match String.get i s with
      | Some c => JStr (String c EmptyString)
      | None => JUndefined
      end
  | JObj props => assoc (pretty i) props
  | _ => JUndefined
  end.

(** Property reads throw a [TypeError] on [undefined] and [null]. *)
Definition get_member (v : JsValue) (name : string) : Completion JsValue :=
  if nullish v then Abrupt TypeError else Normal (member v name).

Definition get_element (v : JsValue) (i : nat) : Completion JsValue :=
  if nullish v then Abrupt TypeError else Normal (element v i).

(** [v > 0].  [undefined] and plain objects coerce to [NaN], [null] to [0],
    booleans to [0] or [1]; strings and arrays go through the string-to-number
    grammar, which is not embedded. *)
Definition greater_than_zero (v : JsValue) : Completion bool :=
  match v with
  | JUndefined => Normal false
  | JNull => Normal false
  | JBool b => Normal b
  | JNum n => Normal (0 <? n)
  | JObj _ => Normal false
  | JStr _ | JArr _ => Unmodelled
  end.

(** ** Strings *)

(** [s.split(sep)] for a one-character separator. *)
Fixpoint split (sep : ascii) (s : string) : list string :=
  match s with
  | EmptyString => [EmptyString]
  | String c rest =>
      if Ascii.eqb c sep then EmptyString :: split sep rest
      else match split sep rest with
           | piece :: pieces => String c piece :: pieces
           | [] => [String c EmptyString]
           end
  end.

(** [s.includes(c)] for a one-character [c]. *)
Fixpoint contains (c : ascii) (s : string) : bool :=
  match s with
  | EmptyString => false
  | String c' rest => Ascii.eqb c' c || contains c rest
  end.

(** Calling [.split] on the result of an index expression, which is
    [undefined] when the index is out of range. *)
Definition split_of (sep : ascii) (o : option string) : Completion (list string) :=
  match o with
  | Some s => Normal (split sep s)
  | None => Abrupt TypeError
  end.

(** [ToString] of an argument that may be [undefined]. *)
Definition to_DOMString (o : option string) : string := default "undefined" o.

Definition char_code (c : ascii) : Z := Z.of_N (N_of_ascii c).

(** [s.charCodeAt(i)]; [None] is [NaN]. *)
Definition charCodeAt (s : string) (i : nat) : option Z :=
  char_code <$> String.get i s.

(** ** [atob]: the forgiving base64 decoder *)

Definition is_ascii_whitespace (c : ascii) : bool :=
  let n := char_code c in
  (n =? 9) || (n =? 10) || (n =? 12) || (n =? 13) || (n =? 32).

Definition base64_index (c : ascii) : option Z :=
  let n := char_code c in
  if (65 <=? n) && (n <=? 90) then Some (n - 65)
  else if (97 <=? n) && (n <=? 122) then Some (n - 71)
  else if (48 <=? n) && (n <=? 57) then Some (n + 4)
  else if n =? 43 then Some 62
  else if n =? 47 then Some 63
  else None.

Definition is_padding (c : ascii) : bool := char_code c =? 61.

(** When the length is a multiple of four, one or two trailing [=] are
    dropped. *)
Definition strip_padding (input : list ascii) : list ascii :=
  if (length input mod 4 =? 0)%nat then
    match rev input with
    | c1 :: r1 =>
        if is_padding c1 then
          match r1 with
          | c2 :: r2 => if is_padding c2 then rev r2 else rev r1
          | [] => rev r1
          end
        else input
    | [] => input
    end
  else input.

(** Six bits per character, flushed as three bytes every 24 bits; a tail of
    12 bits yields one byte and a tail of 18 bits two. *)
Fixpoint decode_sextets (sextets : list Z) : list Z :=
  match sextets with
  | a :: b :: c :: d :: rest =>
      let n := Z.lor (Z.lor (Z.lor (Z.shiftl a 18) (Z.shiftl b 12)) (Z.shiftl c 6)) d in
      Z.land (Z.shiftr n 16) 255 :: Z.land (Z.shiftr n 8) 255 :: Z.land n 255
        :: decode_sextets rest
  | [a; b; c] =>
      let n := Z.shiftr (Z.lor (Z.lor (Z.shiftl a 12) (Z.shiftl b 6)) c) 2 in
      [Z.land (Z.shiftr n 8) 255; Z.land n 255]
  | [a; b] =>
      let n := Z.shiftr (Z.lor (Z.shiftl a 6) b) 4 in
      [Z.land n 255]
  | _ => []
  end.

Definition byte_char (b : Z) : ascii := ascii_of_N (Z.to_N b).

Definition forgiving_base64_decode (input : string) : option string :=
  let stripped :=
    strip_padding (filter (fun c => is_ascii_whitespace c = false) (list_ascii_of_string input)) in
  if (length stripped mod 4 =? 1)%nat then None
  else
    sextets ← mapM base64_index stripped;
    Some (string_of_list_ascii (byte_char <$> decode_sextets sextets)).

Definition atob (input : string) : Completion string :=
  match forgiving_base64_decode input with
  | Some bytes => Normal bytes
  | None => Abrupt (DOMException "InvalidCharacterError")
  end.

(** ** Blobs and files *)

(** A [Blob] as built by [new Blob(parts, { type })] and a [File] as built by
    [new File(bits, name)].  No options bag is passed to [File]. *)
Record Blob : Type := { blob_bytes : list Z; blob_type : string }.
Record File : Type := { file_bits : list Blob; file_name : string }.

Fixpoint string_forall (p : ascii -> bool) (s : string) : bool :=
  match s with
  | EmptyString => true
  | String c rest => p c && string_forall p rest
  end.

Fixpoint string_map (f : ascii -> ascii) (s : string) : string :=
  match s with
  | EmptyString => EmptyString
  | String c rest => String (f c) (string_map f rest)
  end.

(** The characters U+0020 to U+007E. *)
Definition is_printable_ascii (c : ascii) : bool :=
  (32 <=? char_code c) && (char_code c <=? 126).

Definition is_ascii_upper (c : ascii) : bool :=
  (65 <=? char_code c) && (char_code c <=? 90).

Definition ascii_lowercase (c : ascii) : ascii :=
  if is_ascii_upper c then byte_char (char_code c + 32) else c.

(** The [type] attribute the [Blob] constructor derives from its [type]
    option: the empty string when the option holds a character outside U+0020
    to U+007E, and the option in ASCII lower case otherwise. *)
Definition blob_type_of (type : string) : string :=
  if string_forall is_printable_ascii type then string_map ascii_lowercase type
  else "".

(** A type the constructor keeps as it is: printable and without upper-case
    letters. *)
Definition is_normalized_type (type : string) : bool :=
  string_forall (fun c => is_printable_ascii c && negb (is_ascii_upper c)) type.

Definition new_Blob (parts : list (list Z)) (type : option string) : Blob :=
  {| blob_bytes := concat parts; blob_type := blob_type_of (default "" type) |}.

Definition new_File (bits : list Blob) (name : string) : File :=
  {| file_bits := bits; file_name := name |}.

(** A [Uint8Array] store keeps the value modulo 256 ([NaN] becomes 0); a
    store past the end is ignored, as [<[i:=x]>] does. *)
Definition to_uint8 (v : option Z) : Z :=
  match v with
  | Some z => z mod 256
  | None => 0
  end.

Definition new_Uint8Array (n : nat) : list Z := replicate n 0.

(** [for (let i = start; ...; i++) body], run for [count] iterations. *)
Fixpoint for_from {S : Type} (start count : nat) (body : nat -> S -> S) (s : S) : S :=
  match count with
  | O => s
  | Datatypes.S k => for_from (Datatypes.S start) k body (body start s)
  end.

Definition dataURItoFile (dataURI : string) : Completion File :=
  byteString ← atob (to_DOMString (split "," dataURI !! 1%nat));
  byColon ← split_of ":" (split "," dataURI !! 0%nat);
  bySemicolon ← split_of ";" (byColon !! 1%nat);
  let mimeString := bySemicolon !! 0%nat in
  let buffer :=
    for_from 0 (String.length byteString)
      (fun i buffer => <[i := to_uint8 (charCodeAt byteString i)]> buffer)
      (new_Uint8Array (String.length byteString)) in
  let blob := new_Blob [buffer] mimeString in
  mret (new_File [blob] "patient-photo.png").

(** ** Requests, promises and the transport *)

Record AbortSignal : Type := { aborted : bool }.

(** [new AbortController().signal]: a fresh signal, not aborted. *)
Definition new_AbortController_signal : AbortSignal := {| aborted := false |}.

(** A multipart form entry.  [FormJson v] is the string
    [JSON.stringify(v)]. *)
Inductive FormValue : Type :=
| FormString (s : string)
| FormFile (f : File)
| FormJson (v : JsValue).

Definition FormData : Type := list (string * FormValue).

Definition formData_append (name : string) (v : FormValue) (fd : FormData) : FormData :=
  fd ++ [(name, v)].

Inductive BodyInit : Type :=
| JsonBody (v : JsValue)
| MultipartBody (fd : FormData).

(** One call of [openmrsFetch(url, config)].  Absent members of [config] are
    [None] (or the empty header list). *)
Record Request : Type := {
  url : string;
  method : option string;
  headers : list (string * string);
  body : option BodyInit;
  signal : option AbortSignal
}.

Inductive Promise : Type :=
| Fulfilled (response : JsValue)
| Rejected (reason : Exn).

(** The transport decides how each request settles, possibly depending on
    the requests that came before it. *)
Definition Transport : Type := list Request -> Request -> Promise.

(** Code that may call the transport: it reads the transport, extends the
    log of issued requests and completes. *)
Definition Eff (A : Type) : Type :=
  Transport -> list Request -> Completion A * list Request.

#[global] Instance eff_ret : MRet Eff := fun A a _ log => (Normal a, log).
#[global] Instance eff_bind : MBind Eff := fun A B f m t log =>
  match m t log with
  | (Normal a, log') => f a t log'
  | (Abrupt e, log') => (Abrupt e, log')
  | (Unmodelled, log') => (Unmodelled, log')
  end.

Definition lift {A : Type} (c : Completion A) : Eff A := fun _ log => (c, log).

Definition throw {A : Type} (e : Exn) : Eff A := lift (Abrupt e).

(** [try { body } catch (error) { handler }]. *)
Definition try_catch {A : Type} (body : Eff A) (handler : Exn -> Eff A) : Eff A :=
  fun t log =>
    match body t log with
    | (Abrupt e, log') => handler e t log'
    | done => done
    end.

(** The call issues the request at once and hands back its promise. *)
Definition openmrsFetch (req : Request) : Eff Promise :=
  fun t log => (Normal (t log req), log ++ [req]).

Definition await (p : Promise) : Eff JsValue :=
  match p with
  | Fulfilled v => mret v
  | Rejected e => throw e
  end.

(** What an [async] function body hands to [return]: a plain value, or a
    promise that the function's own promise then follows. *)
Inductive Returned : Type :=
| ReturnValue (v : JsValue)
| ReturnPromise (p : Promise).

Definition settle (r : Returned) : Promise :=
  match r with
  | ReturnValue v => Fulfilled v
  | ReturnPromise p => p
  end.

(** An [async] function never throws to its caller: an exception in its body
    rejects the promise it returns. *)
Definition async (body : Eff Returned) : Eff Promise :=
  fun t log =>
    match body t log with
    | (Normal r, log') => (Normal (settle r), log')
    | (Abrupt e, log') => (Normal (Rejected e), log')
    | (Unmodelled, log') => (Unmodelled, log')
    end.

Definition json_headers : list (string * string) :=
  [("Content-Type", "application/json")].

(** ** The exported constants *)

Definition uuidIdentifier : string := "05a29f94-c0ed-11e2-94be-8c13b969e334".
Definition uuidTelephoneNumber : string := "14d4f066-15f5-102d-96e4-000c29c2a5d7".

(** ** The request functions *)

(** [x || ''] for an optional string argument: the empty string and a missing
    argument are both falsy. *)
Definition or_empty (o : option string) : string :=
  match o with
  | Some s => if String.eqb s "" then "" else s
  | None => ""
  end.

Definition savePatient (patient : JsValue) (updatePatientUuid : option string) : Eff Promise :=
  let abortController := new_AbortController_signal in
  openmrsFetch
    {| url := "/ws/rest/v1/patient/" +:+ or_empty updatePatientUuid;
       headers := json_headers;
       method := Some "POST";
       body := Some (JsonBody patient);
       signal := Some abortController |}.

Definition saveEncounter (encounter : JsValue) : Eff Promise :=
  let abortController := new_AbortController_signal in
  openmrsFetch
    {| url := "/ws/rest/v1/encounter";
       headers := json_headers;
       method := Some "POST";
       body := Some (JsonBody encounter);
       signal := Some abortController |}.

Definition generateIdentifier (source : string) : Eff Promise :=
  let abortController := new_AbortController_signal in
  openmrsFetch
    {| url := "/ws/rest/v1/idgen/identifiersource/" +:+ source +:+ "/identifier";
       headers := json_headers;
       method := Some "POST";
       body := Some (JsonBody (JObj []));
       signal := Some abortController |}.

Definition deletePersonName (nameUuid personUuid : string) : Eff Promise :=
  let abortController := new_AbortController_signal in
  openmrsFetch
    {| url := "/ws/rest/v1/person/" +:+ personUuid +:+ "/name/" +:+ nameUuid;
       headers := [];
       method := Some "DELETE";
       body := None;
       signal := Some abortController |}.

Definition saveRelationship (relationship : JsValue) : Eff Promise :=
  let abortController := new_AbortController_signal in
  openmrsFetch
    {| url := "/ws/rest/v1/relationship";
       headers := json_headers;
       method := Some "POST";
       body := Some (JsonBody relationship);
       signal := Some abortController |}.

(** The second parameter of [updateRelationship]. *)
Record RelationshipUpdate : Type := { relationshipType : string }.

Definition updateRelationship (relationshipUuid : string) (relationship : RelationshipUpdate)
  : Eff Promise :=
  let abortController := new_AbortController_signal in
  openmrsFetch
    {| url := "/ws/rest/v1/relationship/" +:+ relationshipUuid;
       headers := json_headers;
       method := Some "POST";
       body := Some (JsonBody (JObj [("relationshipType", JStr (relationshipType relationship))]));
       signal := Some abortController |}.

Definition deleteRelationship (relationshipUuid : string) : Eff Promise :=
  let abortController := new_AbortController_signal in
  openmrsFetch
    {| url := "/ws/rest/v1/relationship/" +:+ relationshipUuid;
       headers := json_headers;
       method := Some "DELETE";
       body := None;
       signal := Some abortController |}.

Definition savePatientPhoto (patientUuid content url_ date conceptUuid : string) : Eff Promise :=
  async (
    let abortController := new_AbortController_signal in
    let formData : FormData := [] in
    let formData := formData_append "patient" (FormString patientUuid) formData in
    file ← lift (dataURItoFile content);
    let formData := formData_append "file" (FormFile file) formData in
    let formData :=
      formData_append "json"
        (FormJson (JObj [("person", JStr patientUuid);
                         ("concept", JStr conceptUuid);
                         ("groupMembers", JArr []);
                         ("obsDatetime", JStr date)]))
        formData in
    p ← openmrsFetch
      {| url := url_;
         headers := [];
         method := Some "POST";
         signal := Some abortController;
         body := Some (MultipartBody formData) |};
    mret (ReturnPromise p)).

(** ** The photo hook *)

(** What [useSWR] hands back to the component. *)
Record SWRResponse : Type := {
  swr_data : JsValue;
  swr_error : JsValue;
  swr_isLoading : bool
}.

(** The reactive-fetch collaborator at one render: the state it holds for
    each key, and whether it fetches that key after this render. *)
Record SWR : Type := {
  swr_state : string -> SWRResponse;
  swr_fetches : string -> bool
}.

(** A hook runs during a render: it completes with a value and registers
    effects.  The effects run after the render, and only if the render
    completed. *)
Definition Render (A : Type) : Type := Completion A * list (Eff unit).

#[global] Instance render_ret : MRet Render := fun A a => (Normal a, []).
#[global] Instance render_bind : MBind Render := fun A B f m =>
  match m with
  | (Normal a, effects) => ((f a).1, effects ++ (f a).2)
  | (Abrupt e, effects) => (Abrupt e, effects)
  | (Unmodelled, effects) => (Unmodelled, effects)
  end.

Definition during_render {A : Type} (c : Completion A) : Render A := (c, []).

Definition use_effect (effect : Eff unit) : Render unit := (Normal tt, [effect]).

Fixpoint run_effects (effects : list (Eff unit)) : Eff unit :=
  match effects with
  | [] => mret tt
  | effect :: rest => _ ← effect; run_effects rest
  end.

(** One render of a component that calls the hook, and what follows it: a
    render that completes has its effects run, a render that throws has
    not. *)
Definition rendered {A : Type} (hook : Render A) : Eff A :=
  match hook with
  | (Normal a, effects) => _ ← run_effects effects; mret a
  | (Abrupt e, _) => throw e
  | (Unmodelled, _) => lift Unmodelled
  end.

(** With a [null] key the collaborator is idle: it does not call the fetcher
    and reports no data, no error and no loading. *)
Definition swr_idle : SWRResponse :=
  {| swr_data := JUndefined; swr_error := JUndefined; swr_isLoading := false |}.

(** With a key, the render gets the state held for the key; the fetcher is
    called, if at all, in an effect. *)
Definition useSWR (swr : SWR) (key : option string) (fetcher : string -> Eff Promise)
  : Render SWRResponse :=
  match key with
  | None => mret swr_idle
  | Some k =>
      _ ← use_effect (if swr_fetches swr k then _ ← fetcher k; mret tt else mret tt);
      mret (swr_state swr k)
  end.

(** [openmrsFetch(url)] with no config, as the fetcher is called. *)
Definition openmrsFetch_url (key : string) : Eff Promise :=
  openmrsFetch {| url := key; headers := []; method := None; body := None; signal := None |}.

(** The part of the configuration that [useConfig()] is read for. *)
Record Config : Type := { patientPhotoUuid : string }.

Record PhotoData : Type := { dateTime : JsValue; imageSrc : JsValue }.

Record UsePatientPhotoResult : Type := {
  data : option PhotoData;
  isError : JsValue;
  isLoading : bool
}.

(** [v?.name]: [undefined] when [v] is [undefined] or [null]. *)
Definition optional_member (v : JsValue) (name : string) : JsValue :=
  if nullish v then JUndefined else member v name.

(** [data?.data?.results[0]]: a nullish link ends the whole chain with
    [undefined]; the index after [results] is an ordinary read. *)
Definition first_result (response : JsValue) : Completion JsValue :=
  if nullish response then Normal JUndefined
  else
    let payload := member response "data" in
    if nullish payload then Normal JUndefined
    else get_element (member payload "results") 0.

Definition usePatientPhoto (config : Config) (swr : SWR) (patientUuid : string)
  : Eff UsePatientPhotoResult :=
  rendered (
    let url_ := "/ws/rest/v1/obs?patient=" +:+ patientUuid +:+ "&concept="
                +:+ patientPhotoUuid config +:+ "&v=full" in
    r ← useSWR swr (if String.eqb patientUuid "" then None else Some url_) openmrsFetch_url;
    item ← during_render (first_result (swr_data r));
    mret {| data :=
              if truthy item
              then Some {| dateTime := optional_member item "obsDatetime";
                           imageSrc :=
                             optional_member
                               (optional_member (optional_member item "value") "links")
                               "uri" |}
              else None;
            isError := swr_error r;
            isLoading := swr_isLoading r |}).

(** ** Person search with patient fallback *)

Definition search_request (endpoint : string) (signal_ : AbortSignal) : Request :=
  {| url := endpoint; headers := []; method := None; body := None; signal := Some signal_ |}.

(** The [try] block of [fetchPerson]. *)
Definition fetchPerson_body (query : string) (signal_ : AbortSignal) : Eff Returned :=
  let BASE_API := "/ws/rest/v1" in
  let personEndpoint := BASE_API +:+ "/person?q=" +:+ query in
  p ← openmrsFetch (search_request personEndpoint signal_);
  response ← await p;
  payload ← lift (get_member response "data");
  results ← lift (get_member payload "results");
  len ← lift (get_member results "length");
  nonEmpty ← lift (greater_than_zero len);
  if (nonEmpty : bool) then
    mret (ReturnValue (JObj [("data", JObj [("results", results)])]))
  else
    let patientEndpoint := BASE_API +:+ "/patient?q=" +:+ query in
    p' ← openmrsFetch (search_request patientEndpoint signal_);
    mret (ReturnPromise p').

Definition fetchPerson (query : string) : Eff Promise :=
  let signal_ := new_AbortController_signal in
  async (try_catch (fetchPerson_body query signal_) (fun error => throw error)).

(** ** Patient identifiers *)

Definition addPatientIdentifier (patientUuid : string) (patientIdentifier : JsValue)
  : Eff Promise :=
  async (
    let abortController := new_AbortController_signal in
    p ← openmrsFetch
      {| url := "/ws/rest/v1/patient/" +:+ patientUuid +:+ "/identifier/";
         method := Some "POST";
         headers := json_headers;
         signal := Some abortController;
         body := Some (JsonBody patientIdentifier) |};
    mret (ReturnPromise p)).

Definition updatePatientIdentifier (patientUuid identifierUuid identifier : string)
  : Eff Promise :=
  async (
    let abortController := new_AbortController_signal in
    p ← openmrsFetch
      {| url := "/ws/rest/v1/patient/" +:+ patientUuid +:+ "/identifier/" +:+ identifierUuid;
         method := Some "POST";
         headers := json_headers;
         signal := Some abortController;
         body := Some (JsonBody (JObj [("identifier", JStr identifier)])) |};
    mret (ReturnPromise p)).

Definition deletePatientIdentifier (patientUuid patientIdentifierUuid : string)
  : Eff Promise :=
  async (
    let abortController := new_AbortController_signal in
    p ← openmrsFetch
      {| url := "/ws/rest/v1/patient/" +:+ patientUuid +:+ "/identifier/"
                +:+ patientIdentifierUuid +:+ "?purge";
         method := Some "DELETE";
         headers := json_headers;
         signal := Some abortController;
         body := None |};
    mret (ReturnPromise p)).

(** ** The module as a whole *)

(** One constructor per exported request function, with its arguments, so
    that a property of every request function can be stated once. *)
Inductive Call : Type :=
| SavePatient (patient : JsValue) (updatePatientUuid : option string)
| SaveEncounter (encounter : JsValue)
| GenerateIdentifier (source : string)
| DeletePersonName (nameUuid personUuid : string)
| SaveRelationship (relationship : JsValue)
| UpdateRelationship (relationshipUuid : string) (relationship : RelationshipUpdate)
| DeleteRelationship (relationshipUuid : string)
| SavePatientPhoto (patientUuid content url_ date conceptUuid : string)
| FetchPerson (query : string)
| AddPatientIdentifier (patientUuid : string) (patientIdentifier : JsValue)
| UpdatePatientIdentifier (patientUuid identifierUuid identifier : string)
| DeletePatientIdentifier (patientUuid patientIdentifierUuid : string).

Definition perform (c : Call) : Eff Promise :=
  match c with
  | SavePatient patient uuid => savePatient patient uuid
  | SaveEncounter encounter => saveEncounter encounter
  | GenerateIdentifier source => generateIdentifier source
  | DeletePersonName nameUuid personUuid => deletePersonName nameUuid personUuid
  | SaveRelationship relationship => saveRelationship relationship
  | UpdateRelationship uuid relationship => updateRelationship uuid relationship
  | DeleteRelationship uuid => deleteRelationship uuid
  | SavePatientPhoto patientUuid content url_ date conceptUuid =>
      savePatientPhoto patientUuid content url_ date conceptUuid
  | FetchPerson query => fetchPerson query
  | AddPatientIdentifier patientUuid patientIdentifier =>
      addPatientIdentifier patientUuid patientIdentifier
  | UpdatePatientIdentifier patientUuid identifierUuid identifier =>
      updatePatientIdentifier patientUuid identifierUuid identifier
  | DeletePatientIdentifier patientUuid patientIdentifierUuid =>
      deletePatientIdentifier patientUuid patientIdentifierUuid
  end.

(** The requests a computation adds to the log it starts from, and how it
    completes. *)
Definition issued {A : Type} (m : Eff A) (t : Transport) (log : list Request)
  : list Request :=
  drop (length log) (m t log).2.

Definition outcome {A : Type} (m : Eff A) (t : Transport) (log : list Request)
  : Completion A :=
  (m t log).1.

Definition has_header (name value : string) (r : Request) : bool :=
  existsb (fun h => String.eqb h.1 name && String.eqb h.2 value) (headers r).

Definition has_json_content_type (r : Request) : bool :=
  has_header "Content-Type" "application/json" r.

Definition mentions_header (name : string) (r : Request) : bool :=
  existsb (fun h => String.eqb h.1 name) (headers r).

Definition has_json_body (r : Request) : bool :=
  match body r with
  | Some (JsonBody _) => true
  | _ => false
  end.

Definition has_multipart_body (r : Request) : bool :=
  match body r with
  | Some (MultipartBody _) => true
  | _ => false
  end.

(** The header rule as a property of one request: the JSON content type is
    attached exactly when the body is JSON. *)
Definition content_type_tracks_json_body (r : Request) : Prop :=
  has_json_content_type r = true <-> has_json_body r = true.

(** The two endpoints of the search, as [fetchPerson] calls them. *)
Definition person_search (query : string) : Request :=
  search_request ("/ws/rest/v1/person?q=" +:+ query) new_AbortController_signal.

Definition patient_search (query : string) : Request :=
  search_request ("/ws/rest/v1/patient?q=" +:+ query) new_AbortController_signal.

(** The reads [fetchPerson] makes of the person response before it decides:
    the [results] it destructures and whether [results.length > 0]. *)
Definition person_results (response : JsValue) : Completion (JsValue * bool) :=
  payload ← get_member response "data";
  results ← get_member payload "results";
  len ← get_member results "length";
  nonEmpty ← greater_than_zero len;
  mret (results, nonEmpty).

(** * Properties *)

(** ** Strings and splitting *)

Lemma append_assoc (a b c : string) : (a +:+ b) +:+ c = a +:+ (b +:+ c).
Proof.
  induction a as [|x a IH]; [reflexivity|].
  change (String x ((a +:+ b) +:+ c) = String x (a +:+ (b +:+ c))).
  by rewrite IH.
Qed.

Lemma append_cons (x : ascii) (a b : string) : String x a +:+ b = String x (a +:+ b).
Proof. reflexivity. Qed.

Lemma append_empty_l (b : string) : "" +:+ b = b.
Proof. reflexivity. Qed.

Lemma split_without (sep : ascii) (s : string) :
  contains sep s = false -> split sep s = [s].
Proof.
  induction s as [|c s IH]; [reflexivity|].
  cbn [contains split]. intros [Hc Hs]%orb_false_iff.
  by rewrite Hc, (IH Hs).
Qed.

Lemma split_at_first (sep : ascii) (a b : string) :
  contains sep a = false -> split sep (a +:+ String sep b) = a :: split sep b.
Proof.
  induction a as [|c a IH].
  - intros _. rewrite append_empty_l. cbn [split]. by rewrite Ascii.eqb_refl.
  - cbn [contains]. intros [Hc Ha]%orb_false_iff.
    rewrite append_cons. cbn [split]. by rewrite Hc, (IH Ha).
Qed.

Lemma contains_elem_of (c : ascii) (s : string) :
  contains c s = true <-> c ∈ list_ascii_of_string s.
Proof.
  induction s as [|c' s IH]; cbn [contains list_ascii_of_string].
  - split; [done|]. by intros ?%elem_of_nil.
  - rewrite orb_true_iff, IH, elem_of_cons, Ascii.eqb_eq.
    split; (intros [->|?]; [by left | by right]).
Qed.

Lemma contains_append (c : ascii) (a b : string) :
  contains c (a +:+ b) = contains c a || contains c b.
Proof.
  induction a as [|x a IH]; [reflexivity|].
  rewrite append_cons. cbn [contains]. by rewrite IH, orb_assoc.
Qed.

(** ** The base64 decoder *)

Lemma char_code_bounded (c : ascii) : 0 <= char_code c < 256.
Proof.
  unfold char_code. pose proof (N_ascii_bounded c). lia.
Qed.

Lemma elem_of_rev (c : ascii) (l : list ascii) : c ∈ rev l <-> c ∈ l.
Proof. rewrite !list_elem_of_In. symmetry. apply in_rev. Qed.

Lemma strip_padding_keeps (c : ascii) (input : list ascii) :
  is_padding c = false -> c ∈ input -> c ∈ strip_padding input.
Proof.
  intros Hc Hin. unfold strip_padding.
  destruct (length input mod 4 =? 0)%nat; [|done].
  assert (Hrev : c ∈ rev input) by (by apply elem_of_rev).
  destruct (rev input) as [|c1 r1] eqn:E; [done|].
  destruct (is_padding c1) eqn:E1; [|done].
  apply elem_of_cons in Hrev as [->|Hrev]; [congruence|].
  destruct r1 as [|c2 r2]; [by apply elem_of_nil in Hrev|].
  destruct (is_padding c2) eqn:E2.
  - apply elem_of_cons in Hrev as [->|Hrev]; [congruence|].
    by apply elem_of_rev.
  - by apply elem_of_rev.
Qed.

Lemma decode_rejects (c : ascii) (input : string) :
  is_ascii_whitespace c = false -> is_padding c = false -> base64_index c = None ->
  contains c input = true -> forgiving_base64_decode input = None.
Proof.
  intros Hws Hpad Hidx Hin. unfold forgiving_base64_decode.
  set (stripped := strip_padding _).
  assert (Hc : c ∈ stripped).
  { apply strip_padding_keeps; [done|].
    apply list_elem_of_filter. split; [done|]. by apply contains_elem_of. }
  destruct (length stripped mod 4 =? 1)%nat; [done|].
  destruct (mapM base64_index stripped) as [sextets|] eqn:E; [|done].
  apply mapM_Some_1 in E.
  apply list_elem_of_lookup in Hc as [i Hi].
  destruct (Forall2_lookup_l _ _ _ _ _ E Hi) as (y & _ & Hy). congruence.
Qed.

Lemma atob_payload_has_no_comma (payload decoded : string) :
  atob payload = Normal decoded -> contains "," payload = false.
Proof.
  unfold atob. intros H.
  destruct (contains "," payload) eqn:E; [|done].
  by rewrite (decode_rejects ","%char payload) in H.
Qed.

Lemma atob_undefined : atob "undefined" = Abrupt (DOMException "InvalidCharacterError").
Proof. reflexivity. Qed.

(** ** The byte-copy loop *)

Lemma for_from_fill (f : nat -> Z) :
  forall (count start : nat) (buffer : list Z),
    length buffer = (start + count)%nat ->
    for_from start count (fun i b => <[i := f i]> b) buffer
    = take start buffer ++ (f <$> seq start count).
Proof.
  induction count as [|k IH]; intros start buffer Hlen; cbn [for_from seq fmap list_fmap].
  - rewrite app_nil_r, take_ge; [done|lia].
  - rewrite IH by (rewrite length_insert; lia).
    rewrite (take_S_r _ _ (f start)) by (apply list_lookup_insert_eq; lia).
    rewrite take_insert_ge by lia. by rewrite <- app_assoc.
Qed.

Lemma charCodeAt_cons (c : ascii) (s : string) (i : nat) :
  charCodeAt (String c s) (S i) = charCodeAt s i.
Proof. reflexivity. Qed.

Lemma char_codes_of_string (s : string) :
  (fun i => to_uint8 (charCodeAt s i)) <$> seq 0 (String.length s)
  = char_code <$> list_ascii_of_string s.
Proof.
  induction s as [|c s IH]; [reflexivity|].
  cbn [String.length seq list_ascii_of_string]. rewrite !fmap_cons. f_equal.
  - cbn. apply Z.mod_small, char_code_bounded.
  - rewrite <- fmap_S_seq, <- list_fmap_compose, <- IH. done.
Qed.

Lemma copy_bytes (s : string) :
  for_from 0 (String.length s)
    (fun i buffer => <[i := to_uint8 (charCodeAt s i)]> buffer)
    (new_Uint8Array (String.length s))
  = char_code <$> list_ascii_of_string s.
Proof.
  rewrite (for_from_fill (fun i => to_uint8 (charCodeAt s i)))
    by (unfold new_Uint8Array; by rewrite length_replicate).
  by rewrite take_0, char_codes_of_string.
Qed.

Lemma length_list_ascii (s : string) :
  length (list_ascii_of_string s) = String.length s.
Proof. induction s as [|c s IH]; [done|]. cbn. by rewrite IH. Qed.

(** ** The data-URI conversion *)

Lemma blob_type_of_normalized (type : string) :
  is_normalized_type type = true -> blob_type_of type = type.
Proof.
  unfold blob_type_of, is_normalized_type. intros H.
  assert (Hboth : string_forall is_printable_ascii type = true
                  /\ string_map ascii_lowercase type = type).
  { induction type as [|c type IH]; [done|].
    cbn [string_forall string_map] in *.
    apply andb_true_iff in H as [[Hp Hu]%andb_true_iff Hrest].
    destruct (IH Hrest) as [-> ->]. rewrite Hp. split; [done|].
    unfold ascii_lowercase. apply negb_true_iff in Hu. by rewrite Hu. }
  destruct Hboth as [-> ->]. done.
Qed.

(** C2, as the code has it.  For a data URI [data:<mime>;base64,<payload>]
    whose MIME type holds none of the separators [,], [:] and [;] and whose
    payload [atob] decodes, [dataURItoFile] returns a file named
    [patient-photo.png] that wraps one blob.  The blob's bytes are the
    character codes of the decoded payload, so its byte length is the decoded
    length.  Its type is the declared MIME type as the [Blob] constructor
    keeps it: in ASCII lower case, or empty when the MIME type holds a
    character outside U+0020 to U+007E; a MIME type that is printable and has
    no upper-case letter is kept as declared. *)
Theorem dataURItoFile_valid (mime payload decoded : string) :
  contains "," mime = false ->
  contains ":" mime = false ->
  contains ";" mime = false ->
  atob payload = Normal decoded ->
  exists blob : Blob,
    dataURItoFile ("data:" +:+ mime +:+ ";base64," +:+ payload)
    = Normal {| file_bits := [blob]; file_name := "patient-photo.png" |}
    /\ blob_type blob
       = (if string_forall is_printable_ascii mime
          then string_map ascii_lowercase mime
          else "")
    /\ (is_normalized_type mime = true -> blob_type blob = mime)
    /\ blob_bytes blob = char_code <$> list_ascii_of_string decoded
    /\ length (blob_bytes blob) = String.length decoded.
Proof.
  intros Hcomma Hcolon Hsemi Hatob.
  pose proof (atob_payload_has_no_comma _ _ Hatob) as Hpayload.
  exists {| blob_bytes := char_code <$> list_ascii_of_string decoded;
            blob_type := blob_type_of mime |}.
  split_and!; [|done|apply blob_type_of_normalized|done
               |cbn [blob_bytes]; by rewrite length_fmap, length_list_ascii].
  unfold dataURItoFile.
  replace ("data:" +:+ mime +:+ ";base64," +:+ payload)
    with (("data:" +:+ mime +:+ ";base64") +:+ String "," payload)
    by (by rewrite !append_assoc).
  rewrite split_at_first, (split_without _ payload Hpayload)
    by (by rewrite !contains_append, Hcomma).
  cbn [lookup list_lookup to_DOMString default from_option id]. rewrite Hatob.
  cbn [mbind completion_bind split_of].
  change ("data:" +:+ mime +:+ ";base64") with ("data" +:+ String ":" (mime +:+ ";base64")).
  rewrite split_at_first by done.
  replace (mime +:+ ";base64") with (mime +:+ String ";" "base64") by done.
  rewrite (split_without ":"%char) by (by rewrite contains_append, Hcolon).
  cbn [lookup list_lookup split_of].
  rewrite split_at_first by done.
  cbn [lookup list_lookup mret completion_ret].
  rewrite copy_bytes. unfold new_Blob, new_File. cbn [concat default from_option id].
  by rewrite app_nil_r.
Qed.

Lemma dataURItoFile_valid_witness :
  exists blob : Blob,
    dataURItoFile ("data:" +:+ "Image/PNG" +:+ ";base64," +:+ "QUJD")
    = Normal {| file_bits := [blob]; file_name := "patient-photo.png" |}
    /\ blob_type blob
       = (if string_forall is_printable_ascii "Image/PNG"
          then string_map ascii_lowercase "Image/PNG"
          else "")
    /\ (is_normalized_type "Image/PNG" = true -> blob_type blob = "Image/PNG")
    /\ blob_bytes blob = char_code <$> list_ascii_of_string "ABC"
    /\ length (blob_bytes blob) = String.length "ABC".
Proof.
  apply (dataURItoFile_valid "Image/PNG" "QUJD" "ABC"); reflexivity.
Defined.

(** C2, as stated, fails: [data:IMAGE/PNG;base64,QUJD] is a data URI of the
    form, its payload decodes, and the blob's type is [image/png], not the
    declared [IMAGE/PNG]. *)
Lemma dataURItoFile_uppercase_mime :
  contains "," "IMAGE/PNG" = false
  /\ contains ":" "IMAGE/PNG" = false
  /\ contains ";" "IMAGE/PNG" = false
  /\ atob "QUJD" = Normal "ABC"
  /\ dataURItoFile "data:IMAGE/PNG;base64,QUJD"
     = Normal {| file_bits := [{| blob_bytes := [65; 66; 67]; blob_type := "image/png" |}];
                 file_name := "patient-photo.png" |}
  /\ ~ (exists blob : Blob,
          dataURItoFile "data:IMAGE/PNG;base64,QUJD"
          = Normal {| file_bits := [blob]; file_name := "patient-photo.png" |}
          /\ blob_type blob = "IMAGE/PNG").
Proof.
  split_and!; [reflexivity..|].
  intros (blob & H & Htype).
  assert (E : dataURItoFile "data:IMAGE/PNG;base64,QUJD"
              = Normal {| file_bits := [{| blob_bytes := [65; 66; 67];
                                           blob_type := "image/png" |}];
                          file_name := "patient-photo.png" |}) by reflexivity.
  rewrite E in H. injection H as <-. discriminate Htype.
Qed.

(** C6. A data URI with no comma makes [dataURItoFile] throw the decoder's
    [InvalidCharacterError]: the missing second piece reaches [atob] as the
    text [undefined], which is not base64.  Nothing catches it: the caller
    [savePatientPhoto] issues no request and its promise is rejected with that
    same error. *)
Theorem dataURItoFile_without_comma (dataURI : string) :
  contains "," dataURI = false ->
  dataURItoFile dataURI = Abrupt (DOMException "InvalidCharacterError")
  /\ forall (patientUuid url_ date conceptUuid : string) (t : Transport) (log : list Request),
       savePatientPhoto patientUuid dataURI url_ date conceptUuid t log
       = (Normal (Rejected (DOMException "InvalidCharacterError")), log).
Proof.
  intros Hcomma.
  assert (H : dataURItoFile dataURI = Abrupt (DOMException "InvalidCharacterError")).
  { unfold dataURItoFile. rewrite (split_without _ _ Hcomma).
    cbn [lookup list_lookup to_DOMString default from_option id].
    by rewrite atob_undefined. }
  split; [done|]. intros.
  unfold savePatientPhoto, async, lift, mbind, eff_bind. by rewrite H.
Qed.

Lemma dataURItoFile_without_comma_witness :
  dataURItoFile "data:image/png;base64" = Abrupt (DOMException "InvalidCharacterError")
  /\ forall (patientUuid url_ date conceptUuid : string) (t : Transport) (log : list Request),
       savePatientPhoto patientUuid "data:image/png;base64" url_ date conceptUuid t log
       = (Normal (Rejected (DOMException "InvalidCharacterError")), log).
Proof.
  apply (dataURItoFile_without_comma "data:image/png;base64"); reflexivity.
Defined.

(** ** Saving a patient *)

Lemma issued_openmrsFetch (req : Request) (t : Transport) (log : list Request) :
  issued (openmrsFetch req) t log = [req] /\
  outcome (openmrsFetch req) t log = Normal (t log req).
Proof.
  unfold issued, outcome, openmrsFetch. cbn [fst snd].
  by rewrite drop_app_length.
Qed.

(** C5. [savePatient(patient, "abc")] issues exactly one request: a POST to
    [/ws/rest/v1/patient/abc] with the JSON content type and the patient as
    body, and returns the transport's promise for it.  Without a uuid the
    same request goes to [/ws/rest/v1/patient/]. *)
Theorem savePatient_request (patient : JsValue) (t : Transport) (log : list Request) :
  let post (path : string) : Request :=
    {| url := path;
       method := Some "POST";
       headers := [("Content-Type", "application/json")];
       body := Some (JsonBody patient);
       signal := Some {| aborted := false |} |} in
  (issued (savePatient patient (Some "abc")) t log = [post "/ws/rest/v1/patient/abc"]
   /\ outcome (savePatient patient (Some "abc")) t log
      = Normal (t log (post "/ws/rest/v1/patient/abc")))
  /\ (issued (savePatient patient None) t log = [post "/ws/rest/v1/patient/"]
      /\ outcome (savePatient patient None) t log
         = Normal (t log (post "/ws/rest/v1/patient/"))).
Proof.
  intros post. split; apply issued_openmrsFetch.
Qed.

(** ** The photo hook *)

Lemma usePatientPhoto_outcome (config : Config) (swr : SWR) (patientUuid : string)
    (t : Transport) (log : list Request) :
  patientUuid <> "" ->
  let url_ := "/ws/rest/v1/obs?patient=" +:+ patientUuid +:+ "&concept="
              +:+ patientPhotoUuid config +:+ "&v=full" in
  let r := swr_state swr url_ in
  outcome (usePatientPhoto config swr patientUuid) t log
  = item ← first_result (swr_data r);
    mret {| data :=
              if truthy item
              then Some {| dateTime := optional_member item "obsDatetime";
                           imageSrc :=
                             optional_member
                               (optional_member (optional_member item "value") "links")
                               "uri" |}
              else None;
            isError := swr_error r;
            isLoading := swr_isLoading r |}.
Proof.
  intros Hne url_ r. unfold outcome, usePatientPhoto.
  apply String.eqb_neq in Hne. rewrite Hne. fold url_.
  unfold useSWR, use_effect, during_render, rendered, openmrsFetch_url, openmrsFetch,
    throw, lift.
  cbv [mbind render_bind mret render_ret fst snd]. fold r.
  destruct (first_result (swr_data r)); [|done..].
  cbv [app run_effects mbind eff_bind mret eff_ret fst].
  by destruct (swr_fetches swr url_).
Qed.

(** C4. With the empty string as [patientUuid] the hook calls the transport
    not at all and reports the collaborator's idle state: [data] is [null]
    and [isLoading] is [false]. *)
Theorem usePatientPhoto_empty_uuid (config : Config) (swr : SWR)
    (t : Transport) (log : list Request) :
  issued (usePatientPhoto config swr "") t log = []
  /\ outcome (usePatientPhoto config swr "") t log
     = Normal {| data := None; isError := JUndefined; isLoading := false |}.
Proof.
  unfold issued, outcome, usePatientPhoto. cbn. by rewrite drop_all.
Qed.

(** C7. For a non-empty [patientUuid] whose response carries the observation
    list [results]: an empty list gives [data: null]; otherwise, the first
    observation being an object (or any truthy value), [data] is built from
    that first element, [dateTime] from its [obsDatetime] and [imageSrc] from
    the [uri] of its [value]'s [links]. *)
Theorem usePatientPhoto_first_observation (config : Config) (swr : SWR)
    (patientUuid : string) (t : Transport) (log : list Request)
    (response : JsValue) (results : list JsValue) :
  let url_ := "/ws/rest/v1/obs?patient=" +:+ patientUuid +:+ "&concept="
              +:+ patientPhotoUuid config +:+ "&v=full" in
  let r := swr_state swr url_ in
  patientUuid <> "" ->
  swr_data r = response ->
  (payload ← get_member response "data"; get_member payload "results")
  = Normal (JArr results) ->
  match results with
  | [] =>
      outcome (usePatientPhoto config swr patientUuid) t log
      = Normal {| data := None; isError := swr_error r; isLoading := swr_isLoading r |}
  | item :: _ =>
      truthy item = true ->
      outcome (usePatientPhoto config swr patientUuid) t log
      = Normal {| data :=
                    Some {| dateTime := member item "obsDatetime";
                            imageSrc :=
                              optional_member
                                (optional_member (member item "value") "links") "uri" |};
                  isError := swr_error r;
                  isLoading := swr_isLoading r |}
  end.
Proof.
  intros url_ r Hne Hdata Hres.
  pose proof (usePatientPhoto_outcome config swr patientUuid t log Hne) as Hout.
  cbv zeta in Hout. fold url_ r in Hout. rewrite Hdata in Hout.
  unfold get_member in Hres. unfold first_result, get_element in Hout.
  destruct (nullish response) eqn:E1; [done|]. cbn [mbind completion_bind] in Hres.
  destruct (nullish (member response "data")) eqn:E2; [done|].
  injection Hres as Hres. rewrite Hres in Hout. cbn [nullish element] in Hout.
  destruct results as [|item rest]; cbn in Hout; [done|].
  intros Htruthy. rewrite Htruthy in Hout.
  assert (Hnn : nullish item = false) by (by destruct item).
  unfold optional_member at 1 4 in Hout. by rewrite Hnn in Hout.
Qed.

Lemma usePatientPhoto_first_observation_witness :
  outcome
    (usePatientPhoto {| patientPhotoUuid := "photo-concept" |}
       {| swr_state := fun _ =>
            {| swr_data :=
                 JObj [("data",
                        JObj [("results",
                               JArr [JObj [("obsDatetime", JStr "2024-01-01");
                                           ("value",
                                            JObj [("links",
                                                   JObj [("uri", JStr "/photo/1")])])]])])];
               swr_error := JUndefined;
               swr_isLoading := false |};
          swr_fetches := fun _ => true |}
       "patient-1")
    (fun _ _ => Fulfilled JNull) []
  = Normal {| data := Some {| dateTime := JStr "2024-01-01"; imageSrc := JStr "/photo/1" |};
              isError := JUndefined;
              isLoading := false |}.
Proof.
  apply (usePatientPhoto_first_observation
           {| patientPhotoUuid := "photo-concept" |}
           {| swr_state := fun _ =>
                {| swr_data :=
                     JObj [("data",
                            JObj [("results",
                                   JArr [JObj [("obsDatetime", JStr "2024-01-01");
                                               ("value",
                                                JObj [("links",
                                                       JObj [("uri", JStr "/photo/1")])])]])])];
                   swr_error := JUndefined;
                   swr_isLoading := false |};
              swr_fetches := fun _ => true |}
           "patient-1" (fun _ _ => Fulfilled JNull) []
           (JObj [("data",
                   JObj [("results",
                          JArr [JObj [("obsDatetime", JStr "2024-01-01");
                                      ("value",
                                       JObj [("links",
                                              JObj [("uri", JStr "/photo/1")])])]])])])
           [JObj [("obsDatetime", JStr "2024-01-01");
                  ("value", JObj [("links", JObj [("uri", JStr "/photo/1")])])]]).
  - discriminate.
  - reflexivity.
  - reflexivity.
  - reflexivity.
Defined.

(** C10. When the response is an object whose [data] is an object with no
    [results], the hook throws a [TypeError]: the optional chain guards
    [data] and [data.data] but not the index into [results]. *)
Theorem usePatientPhoto_missing_results (config : Config) (swr : SWR)
    (patientUuid : string) (t : Transport) (log : list Request)
    (responseProps payloadProps : list (string * JsValue)) :
  let url_ := "/ws/rest/v1/obs?patient=" +:+ patientUuid +:+ "&concept="
              +:+ patientPhotoUuid config +:+ "&v=full" in
  patientUuid <> "" ->
  swr_data (swr_state swr url_) = JObj responseProps ->
  assoc "data" responseProps = JObj payloadProps ->
  "results" ∉ payloadProps.*1 ->
  outcome (usePatientPhoto config swr patientUuid) t log = Abrupt TypeError.
Proof.
  intros url_ Hne Hdata Hpayload Habsent.
  rewrite usePatientPhoto_outcome by done. fold url_. rewrite Hdata.
  unfold first_result. cbn [nullish member]. rewrite Hpayload. cbn [nullish member].
  assert (Hres : assoc "results" payloadProps = JUndefined).
  { clear Hpayload. induction payloadProps as [|[k v] rest IH]; [done|].
    cbn [assoc]. rewrite fmap_cons, not_elem_of_cons in Habsent.
    destruct Habsent as [Hk Hrest]. cbn [fst] in Hk.
    apply String.eqb_neq in Hk. rewrite Hk. by apply IH. }
  by rewrite Hres.
Qed.

Lemma usePatientPhoto_missing_results_witness :
  outcome
    (usePatientPhoto {| patientPhotoUuid := "photo-concept" |}
       {| swr_state := fun _ =>
            {| swr_data := JObj [("data", JObj [("error", JStr "no results")])];
               swr_error := JUndefined;
               swr_isLoading := false |};
          swr_fetches := fun _ => false |}
       "patient-1")
    (fun _ _ => Fulfilled JNull) []
  = Abrupt TypeError.
Proof.
  apply (usePatientPhoto_missing_results _ _ "patient-1" _ []
           [("data", JObj [("error", JStr "no results")])] [("error", JStr "no results")]).
  - discriminate.
  - reflexivity.
  - reflexivity.
  - cbn. intros H. apply list_elem_of_singleton in H. discriminate.
Defined.

(** ** Person search with patient fallback *)

Lemma try_catch_rethrow {A : Type} (body : Eff A) (t : Transport) (log : list Request) :
  try_catch body (fun error => throw error) t log = body t log.
Proof.
  unfold try_catch, throw, lift. by destruct (body t log) as [[a|e|] log'].
Qed.

Lemma fetchPerson_cases (query : string) (t : Transport) (log : list Request) :
  fetchPerson query t log
  = match t log (person_search query) with
    | Rejected e => (Normal (Rejected e), log ++ [person_search query])
    | Fulfilled response =>
        match person_results response with
        | Normal (results, true) =>
            (Normal (Fulfilled (JObj [("data", JObj [("results", results)])])),
             log ++ [person_search query])
        | Normal (_, false) =>
            (Normal (t (log ++ [person_search query]) (patient_search query)),
             (log ++ [person_search query]) ++ [patient_search query])
        | Abrupt e => (Normal (Rejected e), log ++ [person_search query])
        | Unmodelled => (Unmodelled, log ++ [person_search query])
        end
    end.
Proof.
  unfold fetchPerson, async. rewrite try_catch_rethrow.
  unfold fetchPerson_body, person_results.
  change (search_request ("/ws/rest/v1" +:+ "/person?q=" +:+ query) new_AbortController_signal)
    with (person_search query).
  change (search_request ("/ws/rest/v1" +:+ "/patient?q=" +:+ query) new_AbortController_signal)
    with (patient_search query).
  unfold openmrsFetch, await, throw, lift.
  cbv [mbind eff_bind mret eff_ret].
  destruct (t log (person_search query)) as [response|e]; [|done].
  destruct (get_member response "data") as [payload| |]; [|done..].
  cbn [completion_bind].
  destruct (get_member payload "results") as [results| |]; [|done..].
  cbn [completion_bind].
  destruct (get_member results "length") as [len| |]; [|done..].
  cbn [completion_bind].
  by destruct (greater_than_zero len) as [[]| |].
Qed.

Lemma person_results_of_list (response : JsValue) (results : list JsValue) :
  (payload ← get_member response "data"; get_member payload "results")
  = Normal (JArr results) ->
  person_results response = Normal (JArr results, bool_decide (results <> [])).
Proof.
  unfold person_results. intros H.
  destruct (get_member response "data") as [payload| |]; [|done..].
  cbn [mbind completion_bind] in *. rewrite H.
  cbn [mbind completion_bind get_member nullish member String.eqb Ascii.eqb Bool.eqb
       greater_than_zero mret completion_ret].
  by destruct results.
Qed.

(** C1. [fetchPerson(q)] first calls the person search.  When that response
    carries a non-empty [results] list the function returns those results and
    makes no further call; when the list is empty it calls the patient search
    with the same query and returns that call's promise as it is. *)
Theorem fetchPerson_person_then_patient (query : string) (t : Transport)
    (log : list Request) (response : JsValue) (results : list JsValue) :
  t log (person_search query) = Fulfilled response ->
  (payload ← get_member response "data"; get_member payload "results")
  = Normal (JArr results) ->
  url (person_search query) = "/ws/rest/v1/person?q=" +:+ query
  /\ url (patient_search query) = "/ws/rest/v1/patient?q=" +:+ query
  /\ match results with
     | [] =>
         fetchPerson query t log
         = (Normal (t (log ++ [person_search query]) (patient_search query)),
            log ++ [person_search query; patient_search query])
     | _ :: _ =>
         fetchPerson query t log
         = (Normal (Fulfilled (JObj [("data", JObj [("results", JArr results)])])),
            log ++ [person_search query])
     end.
Proof.
  intros Ht Hres. split_and!; [done..|].
  rewrite fetchPerson_cases, Ht, (person_results_of_list _ _ Hres).
  destruct results; cbn [bool_decide]; [|done].
  by rewrite <- app_assoc.
Qed.

Lemma fetchPerson_person_then_patient_witness :
  fetchPerson "doe"
    (fun _ r => if String.eqb (url r) "/ws/rest/v1/person?q=doe"
                then Fulfilled (JObj [("status", JNum 200); ("data", JObj [("results", JArr [])])])
                else Fulfilled (JObj [("status", JNum 200);
                                      ("data", JObj [("results", JArr [JStr "patient"])])]))
    []
  = (Normal (Fulfilled (JObj [("status", JNum 200);
                              ("data", JObj [("results", JArr [JStr "patient"])])])),
     [person_search "doe"; patient_search "doe"]).
Proof.
  refine (proj2 (proj2 (fetchPerson_person_then_patient "doe" _ []
            (JObj [("status", JNum 200); ("data", JObj [("results", JArr [])])]) [] _ _)));
    reflexivity.
Defined.

(** C9. In the non-empty case the value returned is a fresh object whose only
    own property is [data], itself holding only [results]: every other member,
    [status] among them, is absent from it, so it is not the transport
    response whenever that response has any such member. *)
Theorem fetchPerson_results_only (query : string) (t : Transport)
    (log : list Request) (response : JsValue) (results : list JsValue) :
  t log (person_search query) = Fulfilled response ->
  (payload ← get_member response "data"; get_member payload "results")
  = Normal (JArr results) ->
  results <> [] ->
  exists value : JsValue,
    outcome (fetchPerson query) t log = Normal (Fulfilled value)
    /\ own_keys value = ["data"]
    /\ own_keys (member value "data") = ["results"]
    /\ member (member value "data") "results" = JArr results
    /\ member value "status" = JUndefined
    /\ (forall name : string, name <> "data" -> member value name = JUndefined)
    /\ (forall name : string,
          name <> "data" -> member response name <> JUndefined -> value <> response).
Proof.
  intros Ht Hres Hne.
  exists (JObj [("data", JObj [("results", JArr results)])]).
  assert (Hothers : forall name : string, name <> "data" ->
            member (JObj [("data", JObj [("results", JArr results)])]) name = JUndefined).
  { intros name Hname. cbn [member assoc].
    apply String.eqb_neq in Hname. by rewrite Hname. }
  split_and!; try done.
  - unfold outcome. rewrite fetchPerson_cases, Ht, (person_results_of_list _ _ Hres).
    by destruct results.
  - intros name Hname Hpresent Heq. apply Hpresent. rewrite <- Heq. by apply Hothers.
Qed.

Lemma fetchPerson_results_only_witness :
  exists value : JsValue,
    outcome (fetchPerson "doe")
      (fun _ _ => Fulfilled (JObj [("status", JNum 200);
                                   ("data", JObj [("results", JArr [JStr "person"])])]))
      []
    = Normal (Fulfilled value)
    /\ own_keys value = ["data"]
    /\ own_keys (member value "data") = ["results"]
    /\ member (member value "data") "results" = JArr [JStr "person"]
    /\ member value "status" = JUndefined
    /\ (forall name : string, name <> "data" -> member value name = JUndefined)
    /\ (forall name : string,
          name <> "data" ->
          member (JObj [("status", JNum 200);
                        ("data", JObj [("results", JArr [JStr "person"])])]) name
          <> JUndefined ->
          value <> JObj [("status", JNum 200);
                         ("data", JObj [("results", JArr [JStr "person"])])]).
Proof.
  apply (fetchPerson_results_only "doe" _ []
           (JObj [("status", JNum 200); ("data", JObj [("results", JArr [JStr "person"])])])
           [JStr "person"]).
  - reflexivity.
  - reflexivity.
  - discriminate.
Defined.

(** ** Every request function *)

Lemma issued_single {A : Type} (m : Eff A) (t : Transport) (log : list Request)
    (a : Completion A) (req : Request) :
  m t log = (a, log ++ [req]) -> issued m t log = [req] /\ outcome m t log = a.
Proof.
  intros H. unfold issued, outcome. rewrite H. cbn [fst snd].
  by rewrite drop_app_length.
Qed.

Lemma issued_none {A : Type} (m : Eff A) (t : Transport) (log : list Request)
    (a : Completion A) :
  m t log = (a, log) -> issued m t log = [] /\ outcome m t log = a.
Proof.
  intros H. unfold issued, outcome. rewrite H. cbn [fst snd]. by rewrite drop_all.
Qed.

Lemma savePatientPhoto_cases (patientUuid content url_ date conceptUuid : string)
    (t : Transport) (log : list Request) :
  savePatientPhoto patientUuid content url_ date conceptUuid t log
  = match dataURItoFile content with
    | Normal file =>
        let req :=
          {| url := url_;
             headers := [];
             method := Some "POST";
             signal := Some new_AbortController_signal;
             body :=
               Some (MultipartBody
                       [("patient", FormString patientUuid);
                        ("file", FormFile file);
                        ("json",
                         FormJson (JObj [("person", JStr patientUuid);
                                         ("concept", JStr conceptUuid);
                                         ("groupMembers", JArr []);
                                         ("obsDatetime", JStr date)]))]) |} in
        (Normal (t log req), log ++ [req])
    | Abrupt e => (Normal (Rejected e), log)
    | Unmodelled => (Unmodelled, log)
    end.
Proof.
  unfold savePatientPhoto, async, lift, openmrsFetch.
  cbv [mbind eff_bind mret eff_ret].
  by destruct (dataURItoFile content).
Qed.

Lemma issued_fetchPerson (query : string) (t : Transport) (log : list Request)
    (r : Request) :
  r ∈ issued (fetchPerson query) t log ->
  r = person_search query \/ r = patient_search query.
Proof.
  unfold issued. rewrite fetchPerson_cases.
  destruct (t log (person_search query)) as [response|e].
  - destruct (person_results response) as [[results []]| |]; cbn [snd];
      rewrite ?drop_app_length; try (intros ->%list_elem_of_singleton; by left).
    rewrite <- app_assoc, drop_app_length.
    intros [->| ->%list_elem_of_singleton]%elem_of_cons; [by left|by right].
  - cbn [snd]. rewrite drop_app_length. intros ->%list_elem_of_singleton. by left.
Qed.

Ltac one_request :=
  match goal with
  | H : _ ∈ issued ?m ?t ?log |- _ =>
      let E := fresh in
      destruct (issued_single m t log _ _ eq_refl) as [E _];
      rewrite E in H; apply list_elem_of_singleton in H; subst
  end.

(** C3, as the code has it.  Every request with a JSON body carries
    [Content-Type: application/json] and every request with a multipart body
    carries no [Content-Type] header.  Among the requests with no body, the
    header is attached by [deleteRelationship] and [deletePatientIdentifier]
    and by no other function. *)
Theorem content_type_header_rule (c : Call) (t : Transport) (log : list Request)
    (r : Request) :
  r ∈ issued (perform c) t log ->
  (has_json_body r = true -> has_json_content_type r = true)
  /\ (has_multipart_body r = true -> mentions_header "Content-Type" r = false)
  /\ (body r = None ->
      (has_json_content_type r = true
       <-> (exists uuid, c = DeleteRelationship uuid)
           \/ (exists patientUuid identifierUuid,
                 c = DeletePatientIdentifier patientUuid identifierUuid))).
Proof.
  intros Hr.
  destruct c; cbn [perform] in Hr;
    try (one_request; split_and!; [done..|];
         intros Hb; first [discriminate Hb|split; eauto];
         first [discriminate|intros [[? [=]]|(? & ? & [=])]]).
  - (* savePatientPhoto *)
    unfold issued in Hr. rewrite savePatientPhoto_cases in Hr.
    destruct (dataURItoFile content); cbn [snd] in Hr;
      rewrite ?drop_app_length, ?drop_all in Hr;
      try (by apply elem_of_nil in Hr).
    apply list_elem_of_singleton in Hr. subst. split_and!; try done.
  - (* fetchPerson *)
    apply issued_fetchPerson in Hr as [->| ->]; split_and!; try done;
      intros _; (split; [done|intros [[? [=]]|(? & ? & [=])]]).
Qed.

Lemma content_type_header_rule_witness :
  let r := {| url := "/ws/rest/v1/relationship";
              headers := [("Content-Type", "application/json")];
              method := Some "POST";
              body := Some (JsonBody (JObj [("relationshipType", JStr "sibling")]));
              signal := Some {| aborted := false |} |} in
  (has_json_body r = true -> has_json_content_type r = true)
  /\ (has_multipart_body r = true -> mentions_header "Content-Type" r = false)
  /\ (body r = None ->
      (has_json_content_type r = true
       <-> (exists uuid,
              SaveRelationship (JObj [("relationshipType", JStr "sibling")])
              = DeleteRelationship uuid)
           \/ (exists patientUuid identifierUuid,
                 SaveRelationship (JObj [("relationshipType", JStr "sibling")])
                 = DeletePatientIdentifier patientUuid identifierUuid))).
Proof.
  intros r.
  apply (content_type_header_rule
           (SaveRelationship (JObj [("relationshipType", JStr "sibling")]))
           (fun _ _ => Fulfilled JNull) [] r).
  vm_compute. left.
Defined.

(** C3, as stated, fails: [deleteRelationship("rel-1")] sends no body and
    still attaches [Content-Type: application/json]. *)
Lemma deleteRelationship_header_without_body :
  exists r : Request,
    r ∈ issued (perform (DeleteRelationship "rel-1")) (fun _ _ => Fulfilled JNull) []
    /\ body r = None
    /\ has_json_content_type r = true
    /\ ~ content_type_tracks_json_body r.
Proof.
  exists {| url := "/ws/rest/v1/relationship/rel-1";
            headers := [("Content-Type", "application/json")];
            method := Some "DELETE";
            body := None;
            signal := Some {| aborted := false |} |}.
  split_and!; [vm_compute; left|reflexivity|reflexivity|].
  intros [H _]. by specialize (H eq_refl).
Qed.

(** ** Failures of the transport *)

Lemma app_cons_singleton {A : Type} (before after : list A) (x y : A) :
  before ++ x :: after = [y] -> before = [] /\ x = y /\ after = [].
Proof.
  destruct before as [|b before]; cbn.
  - by intros [= -> ->].
  - intros [= _ H]. by destruct before.
Qed.

Lemma single_call_propagates (m : Eff Promise) (t : Transport) (log : list Request)
    (req : Request) :
  m t log = (Normal (t log req), log ++ [req]) ->
  forall (before after : list Request) (r : Request) (e : Exn),
    issued m t log = before ++ r :: after ->
    t (log ++ before) r = Rejected e ->
    outcome m t log = Normal (Rejected e).
Proof.
  intros Hm before after r e Hissued Hrej.
  destruct (issued_single m t log _ _ Hm) as [E ->]. rewrite E in Hissued.
  symmetry in Hissued. apply app_cons_singleton in Hissued as (-> & -> & _).
  rewrite app_nil_r in Hrej. by rewrite Hrej.
Qed.

(** C8. Whenever the transport rejects a request that one of the module's
    functions issued, the promise that function returns is rejected with that
    very error: nothing maps or wraps it.  For [fetchPerson] this covers both
    of its calls, and its [try]/[catch] changes nothing: the function behaves
    as its [try] block alone. *)
Theorem transport_failures_propagate (c : Call) (t : Transport) (log : list Request)
    (before after : list Request) (r : Request) (e : Exn) :
  issued (perform c) t log = before ++ r :: after ->
  t (log ++ before) r = Rejected e ->
  outcome (perform c) t log = Normal (Rejected e)
  /\ forall (query : string) (t' : Transport) (log' : list Request),
       fetchPerson query t' log'
       = async (fetchPerson_body query new_AbortController_signal) t' log'.
Proof.
  intros Hissued Hrej. split.
  - destruct c; cbn [perform] in *;
      try (by eapply single_call_propagates; [reflexivity|eassumption..]).
    + (* savePatientPhoto *)
      pose proof (savePatientPhoto_cases patientUuid content url_ date conceptUuid t log) as E.
      destruct (dataURItoFile content); cbv zeta in E.
      * by eapply single_call_propagates; [exact E|eassumption..].
      * destruct (issued_none _ _ _ _ E) as [E' _]. rewrite E' in Hissued.
        by destruct before.
      * destruct (issued_none _ _ _ _ E) as [E' _]. rewrite E' in Hissued.
        by destruct before.
    + (* fetchPerson *)
      pose proof (fetchPerson_cases query t log) as E.
      destruct (t log (person_search query)) as [response|e'] eqn:Ht.
      * destruct (person_results response) as [[results []]| |];
          try (destruct (issued_single _ _ _ _ _ E) as [E' _]; rewrite E' in Hissued;
               symmetry in Hissued; apply app_cons_singleton in Hissued as (-> & -> & _);
               rewrite app_nil_r in Hrej; congruence).
        unfold issued, outcome in *. rewrite E in *. cbn [fst snd] in *.
        rewrite <- app_assoc, drop_app_length in Hissued.
        destruct before as [|b before]; cbn in Hissued.
        { injection Hissued as <- _. rewrite app_nil_r in Hrej. congruence. }
        injection Hissued as <- Hissued. symmetry in Hissued.
        apply app_cons_singleton in Hissued as (-> & -> & _).
        by rewrite Hrej.
      * destruct (issued_single _ _ _ _ _ E) as [E' E'']. rewrite E' in Hissued.
        symmetry in Hissued. apply app_cons_singleton in Hissued as (-> & -> & _).
        rewrite app_nil_r in Hrej. rewrite E''. congruence.
  - intros query t' log'. unfold fetchPerson, async. by rewrite try_catch_rethrow.
Qed.

Lemma transport_failures_propagate_witness :
  outcome (perform (FetchPerson "doe"))
    (fun _ req => if String.eqb (url req) "/ws/rest/v1/person?q=doe"
                  then Fulfilled (JObj [("data", JObj [("results", JArr [])])])
                  else Rejected (Thrown (JStr "503")))
    []
  = Normal (Rejected (Thrown (JStr "503")))
  /\ forall (query : string) (t' : Transport) (log' : list Request),
       fetchPerson query t' log'
       = async (fetchPerson_body query new_AbortController_signal) t' log'.
Proof.
  apply (transport_failures_propagate (FetchPerson "doe") _ []
           [person_search "doe"] [] (patient_search "doe")); reflexivity.
Defined.

(** * Further properties of the conversion *)

Lemma atob_completes (input : string) :
  (exists decoded, atob input = Normal decoded)
  \/ atob input = Abrupt (DOMException "InvalidCharacterError").
Proof.
  unfold atob. destruct (forgiving_base64_decode input); eauto.
Qed.

Lemma char_codes_in_range (s : string) :
  Forall (fun b => 0 <= b < 256) (char_code <$> list_ascii_of_string s).
Proof.
  apply Forall_fmap, Forall_forall. intros c _. apply char_code_bounded.
Qed.

Lemma split_cons (sep : ascii) (s : string) :
  exists piece pieces, split sep s = piece :: pieces.
Proof.
  induction s as [|c s (piece & pieces & IH)]; cbn [split]; [eauto|].
  destruct (Ascii.eqb c sep); [eauto|]. rewrite IH. eauto.
Qed.

Lemma dataURItoFile_error_cases (dataURI : string) :
  match dataURItoFile dataURI with
  | Normal _ => True
  | Abrupt e => e = DOMException "InvalidCharacterError" \/ e = TypeError
  | Unmodelled => False
  end.
Proof.
  unfold dataURItoFile.
  destruct (atob_completes (to_DOMString (split "," dataURI !! 1%nat)))
    as [[decoded ->]| ->]; cbn [mbind completion_bind]; [|by left].
  destruct (split "," dataURI !! 0%nat) as [header|];
    cbn [mbind completion_bind split_of]; [|by right].
  destruct (split ":" header !! 1%nat) as [typed|];
    cbn [mbind completion_bind split_of mret completion_ret]; [done|by right].
Qed.

Lemma dataURItoFile_file_name (dataURI : string) (file : File) :
  dataURItoFile dataURI = Normal file -> file_name file = "patient-photo.png".
Proof.
  unfold dataURItoFile. intros H.
  destruct (atob (to_DOMString (split "," dataURI !! 1%nat))) as [decoded| |]; [|done..].
  cbn [mbind completion_bind] in H.
  destruct (split_of ":" (split "," dataURI !! 0%nat)) as [byColon| |]; [|done..].
  cbn [mbind completion_bind] in H.
  destruct (split_of ";" (byColon !! 1%nat)) as [bySemicolon| |]; [|done..].
  cbn [mbind completion_bind mret completion_ret] in H. by injection H as <-.
Qed.

(** X1. Whenever [dataURItoFile] returns, the file is named
    [patient-photo.png] and wraps exactly one blob, whose bytes are the
    character codes of what [atob] made of the text between the first and the
    second comma; every byte lies in [0, 256). *)
Theorem dataURItoFile_result_shape (dataURI : string) (file : File) :
  dataURItoFile dataURI = Normal file ->
  exists (decoded mime : string),
    atob (to_DOMString (split "," dataURI !! 1%nat)) = Normal decoded
    /\ file = {| file_bits :=
                   [{| blob_bytes := char_code <$> list_ascii_of_string decoded;
                       blob_type := mime |}];
                 file_name := "patient-photo.png" |}
    /\ Forall (fun b => 0 <= b < 256) (concat (blob_bytes <$> file_bits file)).
Proof.
  unfold dataURItoFile. intros H.
  destruct (atob (to_DOMString (split "," dataURI !! 1%nat))) as [decoded| |]; [|done..].
  cbn [mbind completion_bind] in H.
  destruct (split_of ":" (split "," dataURI !! 0%nat)) as [byColon| |]; [|done..].
  cbn [mbind completion_bind] in H.
  destruct (split_of ";" (byColon !! 1%nat)) as [bySemicolon| |]; [|done..].
  cbn [mbind completion_bind mret completion_ret] in H.
  rewrite copy_bytes in H. injection H as <-.
  exists decoded, (blob_type_of (default "" (bySemicolon !! 0%nat))).
  split_and!; [done| |].
  - unfold new_File, new_Blob. cbn [concat]. by rewrite app_nil_r.
  - unfold new_File, new_Blob. cbn. rewrite !app_nil_r. apply char_codes_in_range.
Qed.

Lemma dataURItoFile_result_shape_witness :
  exists (decoded mime : string),
    atob (to_DOMString (split "," "data:image/jpeg;base64,/9g=" !! 1%nat)) = Normal decoded
    /\ {| file_bits := [{| blob_bytes := [255; 216]; blob_type := "image/jpeg" |}];
          file_name := "patient-photo.png" |}
       = {| file_bits :=
              [{| blob_bytes := char_code <$> list_ascii_of_string decoded;
                  blob_type := mime |}];
            file_name := "patient-photo.png" |}
    /\ Forall (fun b => 0 <= b < 256)
         (concat (blob_bytes <$>
                  file_bits {| file_bits := [{| blob_bytes := [255; 216];
                                                blob_type := "image/jpeg" |}];
                               file_name := "patient-photo.png" |})).
Proof.
  apply (dataURItoFile_result_shape "data:image/jpeg;base64,/9g="). reflexivity.
Defined.

(** X2. [dataURItoFile] fails in two ways only: the decoder's
    [InvalidCharacterError] and the [TypeError] of reading [.split] off a
    missing piece. *)
Theorem dataURItoFile_error_kinds (dataURI : string) :
  match dataURItoFile dataURI with
  | Normal _ => True
  | Abrupt e => e = DOMException "InvalidCharacterError" \/ e = TypeError
  | Unmodelled => False
  end.
Proof. exact (dataURItoFile_error_cases dataURI). Qed.

(** X3. When the text before the first comma holds no colon, a payload that
    decodes is not enough: the MIME line reads [.split] off [undefined] and
    the conversion throws a [TypeError]. *)
Theorem dataURItoFile_without_colon (header payload decoded : string) :
  contains "," header = false ->
  contains ":" header = false ->
  atob payload = Normal decoded ->
  dataURItoFile (header +:+ String "," payload) = Abrupt TypeError.
Proof.
  intros Hcomma Hcolon Hatob.
  pose proof (atob_payload_has_no_comma _ _ Hatob) as Hpayload.
  unfold dataURItoFile.
  rewrite split_at_first, (split_without _ payload) by done.
  cbn [lookup list_lookup to_DOMString default from_option id]. rewrite Hatob.
  cbn [mbind completion_bind split_of]. by rewrite (split_without ":"%char).
Qed.

Lemma dataURItoFile_without_colon_witness :
  dataURItoFile ("image/png;base64" +:+ String "," "QUJD") = Abrupt TypeError.
Proof.
  apply (dataURItoFile_without_colon "image/png;base64" "QUJD" "ABC"); reflexivity.
Defined.

(** X4. Only the text between the first and the second comma is decoded:
    whatever follows a second comma is ignored. *)
Theorem dataURItoFile_ignores_second_comma (header payload rest : string) :
  contains "," header = false ->
  contains "," payload = false ->
  dataURItoFile (header +:+ String "," (payload +:+ String "," rest))
  = dataURItoFile (header +:+ String "," payload).
Proof.
  intros Hheader Hpayload. unfold dataURItoFile.
  by rewrite !split_at_first, (split_without _ payload) by done.
Qed.

Lemma dataURItoFile_ignores_second_comma_witness :
  dataURItoFile ("data:image/png;base64" +:+ String "," ("QUJD" +:+ String "," "????"))
  = dataURItoFile ("data:image/png;base64" +:+ String "," "QUJD").
Proof.
  apply (dataURItoFile_ignores_second_comma "data:image/png;base64" "QUJD" "????");
    reflexivity.
Defined.

(** X5. A payload that [atob] rejects makes the conversion throw the
    decoder's error whatever the text before the comma is, well-formed or
    not. *)
Theorem dataURItoFile_invalid_payload (header payload : string) (e : Exn) :
  contains "," header = false ->
  contains "," payload = false ->
  atob payload = Abrupt e ->
  dataURItoFile (header +:+ String "," payload) = Abrupt e
  /\ e = DOMException "InvalidCharacterError".
Proof.
  intros Hheader Hpayload Hatob. split.
  - unfold dataURItoFile. rewrite split_at_first, (split_without _ payload) by done.
    cbn [lookup list_lookup to_DOMString default from_option id]. by rewrite Hatob.
  - destruct (atob_completes payload) as [[decoded H]|H]; congruence.
Qed.

Lemma dataURItoFile_invalid_payload_witness :
  dataURItoFile ("data:image/png;base64" +:+ String "," "QUJDR")
  = Abrupt (DOMException "InvalidCharacterError")
  /\ DOMException "InvalidCharacterError" = DOMException "InvalidCharacterError".
Proof.
  apply (dataURItoFile_invalid_payload "data:image/png;base64" "QUJDR"); reflexivity.
Defined.

(** X6. Neither the scheme nor the [base64] marker is looked at, and MIME
    parameters are dropped: for a header [<scheme>:<mime>] followed by nothing
    or by [;<params>], the blob's type is made of [<mime>] alone, as the
    [Blob] constructor keeps it (in ASCII lower case, or empty when [<mime>]
    holds a character outside U+0020 to U+007E). *)
Theorem dataURItoFile_mime_before_parameters
    (scheme mime tail payload decoded : string) :
  contains "," scheme = false -> contains ":" scheme = false ->
  contains "," mime = false -> contains ":" mime = false -> contains ";" mime = false ->
  contains "," tail = false -> contains ":" tail = false ->
  tail = "" \/ (exists params, tail = String ";" params) ->
  atob payload = Normal decoded ->
  dataURItoFile ((scheme +:+ String ":" (mime +:+ tail)) +:+ String "," payload)
  = Normal {| file_bits :=
                [{| blob_bytes := char_code <$> list_ascii_of_string decoded;
                    blob_type :=
                      if string_forall is_printable_ascii mime
                      then string_map ascii_lowercase mime
                      else "" |}];
              file_name := "patient-photo.png" |}.
Proof.
  intros Hs1 Hs2 Hm1 Hm2 Hm3 Ht1 Ht2 Htail Hatob.
  pose proof (atob_payload_has_no_comma _ _ Hatob) as Hpayload.
  unfold dataURItoFile.
  rewrite split_at_first, (split_without _ payload)
    by (by rewrite ?contains_append; cbn [contains]; rewrite ?contains_append, ?Hs1, ?Hm1, ?Ht1).
  cbn [lookup list_lookup to_DOMString default from_option id]. rewrite Hatob.
  cbn [mbind completion_bind split_of].
  rewrite split_at_first, (split_without ":"%char)
    by (by rewrite ?contains_append, ?Hm2, ?Ht2).
  cbn [lookup list_lookup split_of].
  assert (Hhead : split ";" (mime +:+ tail) !! 0%nat = Some mime).
  { destruct Htail as [->|[params ->]].
    - replace (mime +:+ "") with mime by (clear; induction mime as [|c m IH];
        [done|by rewrite append_cons, <- IH]).
      by rewrite split_without.
    - by rewrite split_at_first. }
  cbn [mbind completion_bind mret completion_ret]. rewrite Hhead.
  cbn [default from_option id].
  rewrite copy_bytes. unfold new_File, new_Blob. cbn [concat default from_option id].
  by rewrite app_nil_r.
Qed.

Lemma dataURItoFile_mime_before_parameters_witness :
  dataURItoFile (("blob" +:+ String ":" ("Text/Plain" +:+ ";charset=utf-8"))
                 +:+ String "," "QUJD")
  = Normal {| file_bits :=
                [{| blob_bytes := char_code <$> list_ascii_of_string "ABC";
                    blob_type :=
                      if string_forall is_printable_ascii "Text/Plain"
                      then string_map ascii_lowercase "Text/Plain"
                      else "" |}];
              file_name := "patient-photo.png" |}.
Proof.
  apply (dataURItoFile_mime_before_parameters "blob" "Text/Plain" ";charset=utf-8"
           "QUJD" "ABC"); try reflexivity.
  right. by exists "charset=utf-8".
Defined.

Lemma decode_sextets_length (n : nat) :
  forall sextets : list Z,
    (length sextets <= n)%nat ->
    (4 * length (decode_sextets sextets) <= 3 * length sextets)%nat.
Proof.
  induction n as [n IH] using lt_wf_ind. intros sextets Hn.
  destruct sextets as [|a [|b [|c [|d rest]]]]; cbn [decode_sextets length]; try lia.
  cbn [length] in Hn.
  specialize (IH (length rest) ltac:(lia) rest ltac:(lia)). lia.
Qed.

Lemma strip_padding_length (input : list ascii) :
  (length (strip_padding input) <= length input)%nat.
Proof.
  unfold strip_padding. destruct (length input mod 4 =? 0)%nat; [|lia].
  pose proof (length_rev input) as Hrev.
  destruct (rev input) as [|c1 r1]; [lia|]. cbn [length] in Hrev.
  destruct (is_padding c1); [|lia].
  destruct r1 as [|c2 r2]; [cbn; lia|]. cbn [length] in Hrev.
  destruct (is_padding c2); rewrite length_rev; cbn [length]; lia.
Qed.

Lemma length_string_of_list_ascii (l : list ascii) :
  String.length (string_of_list_ascii l) = length l.
Proof. induction l as [|c l IH]; [done|]. cbn. by rewrite IH. Qed.

(** X7. What [atob] returns is never longer than three quarters of its
    input: four characters carry at most three bytes, and white space and
    padding carry none. *)
Theorem atob_length_bound (input decoded : string) :
  atob input = Normal decoded ->
  (4 * String.length decoded <= 3 * String.length input)%nat.
Proof.
  unfold atob, forgiving_base64_decode.
  set (kept := filter _ _). intros H.
  assert (Hkept : (length kept <= String.length input)%nat).
  { rewrite <- length_list_ascii. apply length_filter. }
  pose proof (strip_padding_length kept) as Hstrip.
  destruct (length (strip_padding kept) mod 4 =? 1)%nat; [done|].
  destruct (mapM base64_index (strip_padding kept)) as [sextets|] eqn:E; [|done].
  cbn [mbind option_bind] in H. injection H as <-.
  apply mapM_Some_1, Forall2_length in E.
  rewrite length_string_of_list_ascii, length_fmap.
  pose proof (decode_sextets_length _ sextets (le_n _)). lia.
Qed.

Lemma atob_length_bound_witness :
  (4 * String.length "AB" <= 3 * String.length " QUI= ")%nat.
Proof.
  apply (atob_length_bound " QUI= " "AB"). reflexivity.
Defined.

(** * Further properties of the request functions *)

(** X8. [savePatientPhoto] either uploads or rejects, according to the
    conversion alone.  If the content converts, exactly one request is issued:
    a POST to the caller's URL, without headers, whose multipart body holds
    the fields [patient], [file] and [json] in this order, and the transport's
    promise is returned.  If it does not, nothing is issued and the returned
    promise is rejected with the error the conversion threw. *)
Theorem savePatientPhoto_uploads_or_rejects
    (patientUuid content url_ date conceptUuid : string)
    (t : Transport) (log : list Request) :
  match dataURItoFile content with
  | Normal file =>
      exists r : Request,
        issued (savePatientPhoto patientUuid content url_ date conceptUuid) t log = [r]
        /\ outcome (savePatientPhoto patientUuid content url_ date conceptUuid) t log
           = Normal (t log r)
        /\ url r = url_ /\ method r = Some "POST" /\ headers r = []
        /\ body r
           = Some (MultipartBody
                     [("patient", FormString patientUuid);
                      ("file", FormFile file);
                      ("json",
                       FormJson (JObj [("person", JStr patientUuid);
                                       ("concept", JStr conceptUuid);
                                       ("groupMembers", JArr []);
                                       ("obsDatetime", JStr date)]))])
        /\ file_name file = "patient-photo.png"
  | Abrupt e =>
      issued (savePatientPhoto patientUuid content url_ date conceptUuid) t log = []
      /\ outcome (savePatientPhoto patientUuid content url_ date conceptUuid) t log
         = Normal (Rejected e)
      /\ (e = DOMException "InvalidCharacterError" \/ e = TypeError)
  | Unmodelled => False
  end.
Proof.
  pose proof (savePatientPhoto_cases patientUuid content url_ date conceptUuid t log) as E.
  pose proof (dataURItoFile_error_cases content) as Hkinds.
  destruct (dataURItoFile content) as [file|e|] eqn:Hfile; [| |done].
  - cbv zeta in E. destruct (issued_single _ _ _ _ _ E) as [Hi Ho].
    eexists. split_and!; [exact Hi|exact Ho|done..|].
    by destruct (dataURItoFile_file_name _ _ Hfile).
  - destruct (issued_none _ _ _ _ E) as [Hi Ho]. by split_and!.
Qed.

Lemma log_extended {A : Type} (m : Eff A) (t : Transport) (log added : list Request) :
  (m t log).2 = log ++ added ->
  (m t log).2 = log ++ issued m t log /\ issued m t log = added.
Proof.
  intros H. unfold issued. rewrite H. by rewrite drop_app_length.
Qed.

Lemma fetchPerson_log (query : string) (t : Transport) (log : list Request) :
  (fetchPerson query t log).2 = log ++ [person_search query]
  \/ (fetchPerson query t log).2 = log ++ [person_search query; patient_search query].
Proof.
  rewrite fetchPerson_cases.
  destruct (t log (person_search query)) as [response|e]; [|by left].
  destruct (person_results response) as [[results []]| |]; cbn [snd]; try (by left).
  right. by rewrite <- app_assoc.
Qed.

Lemma savePatientPhoto_log (patientUuid content url_ date conceptUuid : string)
    (t : Transport) (log : list Request) :
  (savePatientPhoto patientUuid content url_ date conceptUuid t log).2 = log ++ []
  \/ exists r, (savePatientPhoto patientUuid content url_ date conceptUuid t log).2
               = log ++ [r].
Proof.
  rewrite savePatientPhoto_cases.
  destruct (dataURItoFile content); cbn [snd]; rewrite ?app_nil_r; eauto.
Qed.

(** X9. No request function touches the requests already logged: each one
    only appends.  [fetchPerson] appends one or two requests,
    [savePatientPhoto] at most one, every other function exactly one. *)
Theorem requests_appended (c : Call) (t : Transport) (log : list Request) :
  (perform c t log).2 = log ++ issued (perform c) t log
  /\ match c with
     | FetchPerson _ =>
         (1 <= length (issued (perform c) t log) <= 2)%nat
     | SavePatientPhoto _ _ _ _ _ =>
         (length (issued (perform c) t log) <= 1)%nat
     | _ => length (issued (perform c) t log) = 1%nat
     end.
Proof.
  destruct c; cbn [perform];
    try (match goal with
         | |- context [issued ?m t log] =>
             destruct (issued_single m t log _ _ eq_refl) as [E _]; rewrite E
         end; split; reflexivity).
  - destruct (savePatientPhoto_log patientUuid content url_ date conceptUuid t log)
      as [H|[r H]]; apply log_extended in H as [H1 H2]; (split; [exact H1|]);
      rewrite H2; cbn; lia.
  - destruct (fetchPerson_log query t log) as [H|H];
      apply log_extended in H as [H1 H2]; (split; [exact H1|]); rewrite H2; cbn; lia.
Qed.



(** X11. Every request except the photo upload goes to a path under
    [/ws/rest/v1/]; the photo upload goes to the URL its caller gave. *)
Theorem urls_under_api_root (c : Call) (t : Transport) (log : list Request)
    (r : Request) :
  r ∈ issued (perform c) t log ->
  match c with
  | SavePatientPhoto _ _ url_ _ _ => url r = url_
  | _ => String.prefix "/ws/rest/v1/" (url r) = true
  end.
Proof.
  intros Hr.
  destruct c; cbn [perform] in Hr; try (one_request; reflexivity).
  - unfold issued in Hr. rewrite savePatientPhoto_cases in Hr.
    destruct (dataURItoFile content); cbn [snd] in Hr;
      rewrite ?drop_app_length, ?drop_all in Hr;
      try (by apply elem_of_nil in Hr).
    apply list_elem_of_singleton in Hr. by subst.
  - by apply issued_fetchPerson in Hr as [->| ->].
Qed.

Lemma urls_under_api_root_witness :
  String.prefix "/ws/rest/v1/"
    (url {| url := "/ws/rest/v1/idgen/identifiersource/src-1/identifier";
            headers := [("Content-Type", "application/json")];
            method := Some "POST";
            body := Some (JsonBody (JObj []));
            signal := Some {| aborted := false |} |}) = true.
Proof.
  apply (urls_under_api_root (GenerateIdentifier "src-1") (fun _ _ => Fulfilled JNull) []).
  vm_compute. left.
Defined.

(** X12. Every request a request function issues carries an abort signal,
    and that signal is not aborted: nothing in the module ever cancels a
    call. *)
Theorem signals_never_aborted (c : Call) (t : Transport) (log : list Request)
    (r : Request) :
  r ∈ issued (perform c) t log ->
  exists s : AbortSignal, signal r = Some s /\ aborted s = false.
Proof.
  intros Hr.
  destruct c; cbn [perform] in Hr; try (one_request; by eexists).
  - unfold issued in Hr. rewrite savePatientPhoto_cases in Hr.
    destruct (dataURItoFile content); cbn [snd] in Hr;
      rewrite ?drop_app_length, ?drop_all in Hr;
      try (by apply elem_of_nil in Hr).
    apply list_elem_of_singleton in Hr. subst. by eexists.
  - apply issued_fetchPerson in Hr as [->| ->]; by eexists.
Qed.

Lemma signals_never_aborted_witness :
  exists s : AbortSignal,
    signal (patient_search "doe") = Some s /\ aborted s = false.
Proof.
  apply (signals_never_aborted (FetchPerson "doe")
           (fun _ _ => Fulfilled (JObj [("data", JObj [("results", JArr [])])])) []).
  vm_compute. right. left.
Defined.

(** X13. No request function throws to its caller: a failure, the decoding
    error of the photo upload and the [TypeError] of a malformed search
    response included, arrives as a rejected promise. *)
Theorem failures_arrive_as_rejections (c : Call) (t : Transport) (log : list Request)
    (e : Exn) :
  outcome (perform c) t log <> Abrupt e.
Proof.
  unfold outcome. destruct c; cbn [perform]; try done.
  - rewrite savePatientPhoto_cases. by destruct (dataURItoFile content).
  - rewrite fetchPerson_cases.
    destruct (t log (person_search query)) as [response|e']; [|done].
    by destruct (person_results response) as [[results []]| |].
Qed.

(** * Further properties of the search fallback *)

(** X14. The fallback is for an empty answer, not for a failure: when the
    person search is rejected, [fetchPerson] issues no patient search and its
    promise is rejected with the same error. *)
Theorem fetchPerson_no_fallback_on_failure (query : string) (t : Transport)
    (log : list Request) (e : Exn) :
  t log (person_search query) = Rejected e ->
  fetchPerson query t log = (Normal (Rejected e), log ++ [person_search query]).
Proof.
  intros Ht. by rewrite fetchPerson_cases, Ht.
Qed.

Lemma fetchPerson_no_fallback_on_failure_witness :
  fetchPerson "doe" (fun _ _ => Rejected (Thrown (JStr "offline"))) []
  = (Normal (Rejected (Thrown (JStr "offline"))), [] ++ [person_search "doe"]).
Proof.
  apply (fetchPerson_no_fallback_on_failure "doe" _ [] (Thrown (JStr "offline"))).
  reflexivity.
Defined.

(** X15. A person response that is [undefined] or [null], or whose [data] or
    [data.results] is, makes [fetchPerson] reject with a [TypeError] after the
    person search alone: the patient search is not tried. *)
Theorem fetchPerson_malformed_response (query : string) (t : Transport)
    (log : list Request) (response : JsValue) :
  t log (person_search query) = Fulfilled response ->
  nullish response = true
  \/ nullish (member response "data") = true
  \/ nullish (member (member response "data") "results") = true ->
  fetchPerson query t log = (Normal (Rejected TypeError), log ++ [person_search query]).
Proof.
  intros Ht Hbad. rewrite fetchPerson_cases, Ht.
  unfold person_results, get_member.
  destruct (nullish response) eqn:E1; [done|]. cbn [mbind completion_bind].
  destruct (nullish (member response "data")) eqn:E2; [done|]. cbn [mbind completion_bind].
  destruct (nullish (member (member response "data") "results")) eqn:E3; [done|].
  by destruct Hbad as [?|[?|?]].
Qed.

Lemma fetchPerson_malformed_response_witness :
  fetchPerson "doe" (fun _ _ => Fulfilled (JObj [("status", JNum 204)])) []
  = (Normal (Rejected TypeError), [] ++ [person_search "doe"]).
Proof.
  apply (fetchPerson_malformed_response "doe" _ [] (JObj [("status", JNum 204)])).
  - reflexivity.
  - right. left. reflexivity.
Defined.

(** X16. Whatever the transport does, the person search is the first request
    [fetchPerson] issues, and the only request that can follow it is the
    patient search for the same query. *)
Theorem fetchPerson_request_order (query : string) (t : Transport) (log : list Request) :
  issued (fetchPerson query) t log = [person_search query]
  \/ issued (fetchPerson query) t log = [person_search query; patient_search query].
Proof.
  destruct (fetchPerson_log query t log) as [H|H];
    apply log_extended in H as [_ H]; eauto.
Qed.

(** X17. Emptiness is decided by [results.length > 0] alone: a [results]
    that is present but has no [length] (a number, a boolean, an object
    without that member) counts as empty and sends [fetchPerson] to the
    patient search. *)
Theorem fetchPerson_results_without_length (query : string) (t : Transport)
    (log : list Request) (response results : JsValue) :
  t log (person_search query) = Fulfilled response ->
  (payload ← get_member response "data"; get_member payload "results") = Normal results ->
  nullish results = false ->
  member results "length" = JUndefined ->
  fetchPerson query t log
  = (Normal (t (log ++ [person_search query]) (patient_search query)),
     log ++ [person_search query; patient_search query]).
Proof.
  intros Ht Hres Hnn Hlen. rewrite fetchPerson_cases, Ht.
  unfold person_results.
  destruct (get_member response "data") as [payload| |]; [|done..].
  cbn [mbind completion_bind] in *. rewrite Hres. cbn [mbind completion_bind].
  unfold get_member at 1. rewrite Hnn, Hlen.
  cbn [mbind completion_bind greater_than_zero mret completion_ret].
  by rewrite <- app_assoc.
Qed.

Lemma fetchPerson_results_without_length_witness :
  fetchPerson "doe"
    (fun _ r => if String.eqb (url r) "/ws/rest/v1/person?q=doe"
                then Fulfilled (JObj [("data", JObj [("results", JObj [("total", JNum 3)])])])
                else Fulfilled (JObj [("data", JObj [("results", JArr [])])]))
    []
  = (Normal (Fulfilled (JObj [("data", JObj [("results", JArr [])])])),
     [] ++ [person_search "doe"; patient_search "doe"]).
Proof.
  exact (fetchPerson_results_without_length "doe"
           (fun _ r => if String.eqb (url r) "/ws/rest/v1/person?q=doe"
                       then Fulfilled
                              (JObj [("data", JObj [("results", JObj [("total", JNum 3)])])])
                       else Fulfilled (JObj [("data", JObj [("results", JArr [])])]))
           []
           (JObj [("data", JObj [("results", JObj [("total", JNum 3)])])])
           (JObj [("total", JNum 3)])
           eq_refl eq_refl eq_refl eq_refl).
Defined.

(** * Further properties of the photo hook *)

(** X18. While the collaborator has no response yet ([undefined] or [null]),
    or the response has no [data], the hook does not throw: [data] is [null]
    and [isError] and [isLoading] are the collaborator's. *)
Theorem usePatientPhoto_without_response (config : Config) (swr : SWR)
    (patientUuid : string) (t : Transport) (log : list Request) :
  let url_ := "/ws/rest/v1/obs?patient=" +:+ patientUuid +:+ "&concept="
              +:+ patientPhotoUuid config +:+ "&v=full" in
  let r := swr_state swr url_ in
  patientUuid <> "" ->
  nullish (swr_data r) = true \/ nullish (member (swr_data r) "data") = true ->
  outcome (usePatientPhoto config swr patientUuid) t log
  = Normal {| data := None; isError := swr_error r; isLoading := swr_isLoading r |}.
Proof.
  intros url_ r Hne Hnull.
  rewrite usePatientPhoto_outcome by done. fold url_ r.
  unfold first_result.
  destruct (nullish (swr_data r)) eqn:E1; [done|].
  destruct Hnull as [?|Hnull]; [done|]. by rewrite Hnull.
Qed.

Lemma usePatientPhoto_without_response_witness :
  outcome
    (usePatientPhoto {| patientPhotoUuid := "photo-concept" |}
       {| swr_state := fun _ =>
            {| swr_data := JUndefined; swr_error := JUndefined; swr_isLoading := true |};
          swr_fetches := fun _ => true |}
       "patient-1")
    (fun _ _ => Fulfilled JNull) []
  = Normal {| data := None; isError := JUndefined; isLoading := true |}.
Proof.
  apply (usePatientPhoto_without_response {| patientPhotoUuid := "photo-concept" |}
           {| swr_state := fun _ =>
                {| swr_data := JUndefined; swr_error := JUndefined; swr_isLoading := true |};
              swr_fetches := fun _ => true |}
           "patient-1" (fun _ _ => Fulfilled JNull) []).
  - discriminate.
  - left. reflexivity.
Defined.

(** X19. When [data.data.results] is a list the hook never throws, whatever
    the list holds.  Only a truthy first element yields a photo: an empty list
    and a first element that is [null], [undefined], [false], [0] or the empty
    string all give [data: null]. *)
Theorem usePatientPhoto_list_never_throws (config : Config) (swr : SWR)
    (patientUuid : string) (t : Transport) (log : list Request)
    (results : list JsValue) :
  let url_ := "/ws/rest/v1/obs?patient=" +:+ patientUuid +:+ "&concept="
              +:+ patientPhotoUuid config +:+ "&v=full" in
  let r := swr_state swr url_ in
  patientUuid <> "" ->
  (payload ← get_member (swr_data r) "data"; get_member payload "results")
  = Normal (JArr results) ->
  exists photo : option PhotoData,
    outcome (usePatientPhoto config swr patientUuid) t log
    = Normal {| data := photo; isError := swr_error r; isLoading := swr_isLoading r |}
    /\ (photo = None <-> Forall (fun item => truthy item = false) (take 1 results)).
Proof.
  intros url_ r Hne Hres.
  rewrite usePatientPhoto_outcome by done. fold url_ r.
  unfold get_member in Hres. unfold first_result, get_element.
  destruct (nullish (swr_data r)) eqn:E1; [done|]. cbn [mbind completion_bind] in Hres.
  destruct (nullish (member (swr_data r) "data")) eqn:E2; [done|].
  injection Hres as ->. cbn [nullish element].
  destruct results as [|item rest]; cbn [lookup list_lookup default from_option id
                                           mbind completion_bind mret completion_ret].
  - exists None. split; [done|]. split; [by constructor|done].
  - destruct (truthy item) eqn:Ht; eexists; (split; [reflexivity|]); cbn [take].
    + split; [done|]. intros H. apply Forall_cons in H as [H _]. congruence.
    + split; [|done]. intros _. by repeat constructor.
Qed.

Lemma usePatientPhoto_list_never_throws_witness :
  exists photo : option PhotoData,
    outcome
      (usePatientPhoto {| patientPhotoUuid := "photo-concept" |}
         {| swr_state := fun _ =>
              {| swr_data := JObj [("data", JObj [("results", JArr [JNull; JObj []])])];
                 swr_error := JUndefined;
                 swr_isLoading := false |};
            swr_fetches := fun _ => false |}
         "patient-1")
      (fun _ _ => Fulfilled JNull) []
    = Normal {| data := photo; isError := JUndefined; isLoading := false |}
    /\ (photo = None
        <-> Forall (fun item => truthy item = false) (take 1 [JNull; JObj []])).
Proof.
  apply (usePatientPhoto_list_never_throws {| patientPhotoUuid := "photo-concept" |}
           {| swr_state := fun _ =>
                {| swr_data := JObj [("data", JObj [("results", JArr [JNull; JObj []])])];
                   swr_error := JUndefined;
                   swr_isLoading := false |};
              swr_fetches := fun _ => false |}
           "patient-1" (fun _ _ => Fulfilled JNull) [] [JNull; JObj []]).
  - discriminate.
  - reflexivity.
Defined.

(** X20. For a non-empty [patientUuid] the only request the hook can cause
    is a bare call (no method, headers, body or signal) for the observation
    query of that patient and the configured photo concept.  It is issued
    after a render that completed, when the collaborator fetches; a render
    that throws issues nothing. *)
Theorem usePatientPhoto_request (config : Config) (swr : SWR)
    (patientUuid : string) (t : Transport) (log : list Request) :
  let url_ := "/ws/rest/v1/obs?patient=" +:+ patientUuid +:+ "&concept="
              +:+ patientPhotoUuid config +:+ "&v=full" in
  patientUuid <> "" ->
  issued (usePatientPhoto config swr patientUuid) t log
  = match outcome (usePatientPhoto config swr patientUuid) t log with
    | Normal _ =>
        if swr_fetches swr url_
        then [{| url := url_; method := None; headers := []; body := None;
                 signal := None |}]
        else []
    | _ => []
    end.
Proof.
  intros url_ Hne. unfold issued, outcome, usePatientPhoto.
  apply String.eqb_neq in Hne. rewrite Hne. fold url_.
  unfold useSWR, use_effect, during_render, rendered, openmrsFetch_url, openmrsFetch,
    throw, lift.
  cbv [mbind render_bind mret render_ret fst snd].
  destruct (first_result (swr_data (swr_state swr url_)));
    [|by rewrite drop_all..].
  cbn [app]. cbv [run_effects mbind eff_bind mret eff_ret fst snd].
  destruct (swr_fetches swr url_); cbv [fst snd];
    by rewrite ?drop_app_length, ?drop_all.
Qed.

Lemma usePatientPhoto_request_witness :
  issued
    (usePatientPhoto {| patientPhotoUuid := "c-7" |}
       {| swr_state := fun _ =>
            {| swr_data := JUndefined; swr_error := JUndefined; swr_isLoading := true |};
          swr_fetches := fun _ => true |}
       "p-1")
    (fun _ _ => Fulfilled JNull) []
  = [{| url := "/ws/rest/v1/obs?patient=p-1&concept=c-7&v=full";
        method := None; headers := []; body := None; signal := None |}].
Proof.
  apply (usePatientPhoto_request {| patientPhotoUuid := "c-7" |}
           {| swr_state := fun _ =>
                {| swr_data := JUndefined; swr_error := JUndefined;
                   swr_isLoading := true |};
              swr_fetches := fun _ => true |}
           "p-1" (fun _ _ => Fulfilled JNull) []).
  discriminate.
Defined.

(** * Further properties of [savePatient] and of [split] *)

(** X21. [savePatient] appends the uuid to the path as it is given, for every
    uuid; an empty uuid and a missing one give the same request, a POST to
    [/ws/rest/v1/patient/]. *)
Theorem savePatient_any_uuid (patient : JsValue) (uuid : option string)
    (t : Transport) (log : list Request) :
  issued (savePatient patient uuid) t log
  = [{| url := "/ws/rest/v1/patient/" +:+ default "" uuid;
        method := Some "POST";
        headers := [("Content-Type", "application/json")];
        body := Some (JsonBody patient);
        signal := Some {| aborted := false |} |}]
  /\ savePatient patient (Some "") t log = savePatient patient None t log.
Proof.
  split; [|done].
  destruct (issued_single (savePatient patient uuid) t log _ _ eq_refl) as [E _].
  rewrite E. unfold or_empty. destruct uuid as [s|]; [|done].
  destruct (String.eqb_spec s ""); by subst.
Qed.

(** X22. The pieces [split] returns never contain the separator, there is at
    least one of them, and their lengths, with one more for each separator
    between two pieces, add up to the length of the string. *)
Theorem split_pieces (sep : ascii) (s : string) :
  Forall (fun piece => contains sep piece = false) (split sep s)
  /\ (1 <= length (split sep s))%nat
  /\ (sum_list (String.length <$> split sep s) + (length (split sep s) - 1)
      = String.length s)%nat.
Proof.
  induction s as [|c s (IH1 & IH2 & IH3)]; cbn [split].
  - split_and!; [by repeat constructor|cbn; lia|done].
  - destruct (Ascii.eqb c sep) eqn:E.
    + split_and!; [by constructor|cbn; lia|].
      cbn [fmap list_fmap sum_list_with sum_list length String.length]. unfold id in *. lia.
    + destruct (split sep s) as [|piece pieces]; [cbn in IH2; lia|].
      apply Forall_cons in IH1 as [Hp Hps].
      split_and!; [constructor; [cbn [contains]; by rewrite E, Hp|done]|cbn; lia|].
      cbn [fmap list_fmap sum_list_with sum_list length String.length] in *.
      unfold id in *. lia.
Qed.
